(** * Ask.N7 front end: status poller, chat controller, session list

    A shallow embedding of the client-side state machines of the Ask.N7
    React front end:

    - [Poller]: [stopPolling], [startPolling] and [pollStatus], which are
      the same code in [GeneralChat.jsx] (lines 266-335) and
      [chatDashboard.jsx] (lines 203-272);
    - [Chat]: [handleSubmit] and the pending-question effect of
      [GeneralChat.jsx];
    - [Sessions] and [SessionActions]: [fetchSessions], [createNewSession],
      [deleteSession], [switchSession] and [formatDate] of the chat page;
    - [Handlers]: the process, delete and initial-status handlers around
      the poller;
    - [Dashboard]: the sorting, filtering, counters and row flags of
      [chatDashboard.jsx];
    - [ChatView]: [handleQuestionSubmit] of the landing page.

    React state ([useState]) and refs ([useRef]) are fields of explicit
    state records; a handler is a function from the state it reads, and the
    outcome of the requests it awaits, to the state it leaves behind and
    the list of side effects it performed, in program order. *)

From Stdlib Require Import ZArith Ascii String Lia.
From stdpp Require Import base option list gmap strings fin_maps sorting.

Local Open Scope string_scope.
Local Open Scope list_scope.
Local Open Scope Z_scope.

(** ** JavaScript idioms *)

(** Truthiness of a string: every string but the empty one. *)
Definition truthy (s : string) : bool := negb (String.eqb s "").

(** Truthiness of a value that is a string, [undefined] or [null]. *)
Definition truthy_opt (o : option string) : bool :=
  match o with
  | Some s => truthy s
  | None => false
  end.

(** [a || b] where [b] is a string: [a] when truthy, else [b]. *)
Definition or_default (a : option string) (b : string) : string :=
  match a with
  | Some s => if truthy s then s else b
  | None => b
  end.

(** [a || b] where [b] may itself be [null]. *)
Definition or_else (a b : option string) : option string :=
  if truthy_opt a then a else b.

(** ** Constants (both components) *)

Definition POLL_INTERVAL : Z := 3000.
Definition POLL_TIMEOUT : Z := 120000.

(** ** The status poller *)

Module Poller.

(** Payload of [GET /api/document/process/status/{fileId}]. *)
Record StatusData := mkStatusData {
  sd_status : string;
  sd_message : option string;
  sd_error : option string
}.

(** An entry of [fileStatuses]: the payload's fields plus [startTime].
    [startTime] may be [undefined] (the entry written when the process
    request itself fails has none). *)
Record FileStatus := mkFileStatus {
  status : string;
  message : option string;
  error : option string;
  startTime : option Z
}.

(** Side effects a handler performs besides changing the stores.
    [FetchFiles] is the refetch of the file list, [fetchFiles()] in
    [GeneralChat.jsx] and [fetchData()] in [chatDashboard.jsx]; it is the
    only place where the two copies of the poller differ. *)
Inductive Effect :=
| ToastError (msg title : string)
| ToastSuccess (msg title : string)
| FetchFiles.

(** [fileStatuses] is the React state of that name, [pollIntervalsRef] is
    the object in [pollIntervalsRef.current] (file id to interval handle),
    and [timers] is the part of the browser's table of active interval
    timers that the component created: handle to the file id its callback
    polls.  Handles returned by [setInterval] are positive integers. *)
Record State := mkState {
  fileStatuses : gmap string FileStatus;
  pollIntervalsRef : gmap string positive;
  timers : gmap positive string
}.

Definition init : State := mkState ∅ ∅ ∅.

(** [clearInterval(h)]: removes the timer; a no-op when [h] is not active. *)
Definition clearInterval (h : positive) (t : gmap positive string)
  : gmap positive string := delete h t.

(** [stopPolling], lines 319-324 / 256-261. *)
Definition stopPolling (fileId : string) (s : State) : State :=
  match pollIntervalsRef s !! fileId with
  | Some h =>
      mkState (fileStatuses s)
              (delete fileId (pollIntervalsRef s))
              (clearInterval h (timers s))
  | None => s
  end.

(** [startPolling], lines 327-335 / 264-272.  [h] is the handle that
    [setInterval] returns; the period of the timer is [POLL_INTERVAL] and
    is not part of the state. *)
Definition startPolling (fileId : string) (h : positive) (s : State) : State :=
  let s1 := stopPolling fileId s in
  mkState (fileStatuses s1)
          (<[fileId := h]> (pollIntervalsRef s1))
          (<[h := fileId]> (timers s1)).

Definition timeout_message : string := "Processing timed out. Please try again.".

(** [currentStatus.startTime || Date.now()]: [undefined] and [0] are
    falsy.  [t0] is the clock read by this expression. *)
Definition effective_start (cur : option FileStatus) (t0 : Z) : Z :=
  match cur ≫= startTime with
  | Some t => if t =? 0 then t0 else t
  | None => t0
  end.

(** [currentStatus.status === 'processing'] with [currentStatus = {}]
    when the file is not tracked. *)
Definition wasProcessing (cur : option FileStatus) : bool :=
  match cur with
  | Some c => String.eqb (status c) "processing"
  | None => false
  end.

Definition is_terminal (st : string) : bool :=
  String.eqb st "completed" || String.eqb st "failed".

Record Outcome := mkOutcome {
  next : State;
  effects : list Effect;
  returned : option StatusData
}.

(** [pollStatus], lines 266-316 / 203-253.  [response] is [None] when the
    status request throws; [t0] and [t1] are the two readings of
    [Date.now()] in the state updater, [t0] for the default start time and
    [t1] for the timeout test. *)
Definition pollStatus (fileId : string) (response : option StatusData)
    (t0 t1 : Z) (s : State) : Outcome :=
  match response with
  | None => mkOutcome s [] None
  | Some statusData =>
      let currentStatus := fileStatuses s !! fileId in
      let startTime := effective_start currentStatus t0 in
      let wasProc := wasProcessing currentStatus in
      if POLL_TIMEOUT <? t1 - startTime then
        let s1 := stopPolling fileId s in
        mkOutcome
          (mkState
             (<[fileId := mkFileStatus "failed" (sd_message statusData)
                            (Some timeout_message) (Some startTime)]>
                (fileStatuses s1))
             (pollIntervalsRef s1) (timers s1))
          [ToastError timeout_message "Timeout"]
          (Some statusData)
      else
        let s1 :=
          if is_terminal (sd_status statusData) then stopPolling fileId s else s in
        let fx :=
          if String.eqb (sd_status statusData) "completed" then
            FetchFiles ::
            (if wasProc
             then [ToastSuccess "Document processed successfully! Ready to chat." "Complete"]
             else [])
          else if String.eqb (sd_status statusData) "failed" && wasProc then
            [ToastError
               (or_default (sd_error statusData) "Processing failed. Please try again.")
               "Failed"]
          else [] in
        mkOutcome
          (mkState
             (<[fileId := mkFileStatus (sd_status statusData) (sd_message statusData)
                            (sd_error statusData) (Some startTime)]>
                (fileStatuses s1))
             (pollIntervalsRef s1) (timers s1))
          fx
          (Some statusData)
  end.

(** The toast notifications among the effects of a handler. *)
Definition is_toast (e : Effect) : bool :=
  match e with
  | ToastError _ _ | ToastSuccess _ _ => true
  | FetchFiles => false
  end.

Definition toasts (fx : list Effect) : list Effect :=
  List.filter is_toast fx.

(** Unmount cleanup, lines 55-61 / 156-162: every registered handle is
    cleared; the registry itself is left as it is. *)
Definition unmount (s : State) : State :=
  mkState (fileStatuses s) (pollIntervalsRef s)
          (map_fold (λ _ h t, clearInterval h t) (timers s) (pollIntervalsRef s)).

(** The primitive actions the component's handlers are made of. *)
Inductive Op :=
| OpTrack (fileId : string) (entry : FileStatus)
| OpUntrack (fileId : string)
| OpStart (fileId : string) (h : positive)
| OpStop (fileId : string)
| OpTick (fileId : string) (response : option StatusData) (t0 t1 : Z)
| OpUnmount.

Definition step (op : Op) (s : State) : State :=
  match op with
  | OpTrack f e => mkState (<[f := e]> (fileStatuses s)) (pollIntervalsRef s) (timers s)
  | OpUntrack f => mkState (delete f (fileStatuses s)) (pollIntervalsRef s) (timers s)
  | OpStart f h => startPolling f h s
  | OpStop f => stopPolling f s
  | OpTick f r t0 t1 => next (pollStatus f r t0 t1 s)
  | OpUnmount => unmount s
  end.

(** [setInterval] never returns the handle of a timer that is active at
    the time of the call, which in [startPolling] is after [stopPolling]. *)
Definition allowed (op : Op) (s : State) : Prop :=
  match op with
  | OpStart f h => timers (stopPolling f s) !! h = None
  | _ => True
  end.

Inductive reachable : State → Prop :=
| reachable_init : reachable init
| reachable_step op s : reachable s → allowed op s → reachable (step op s).

(** Every live timer is the one registered for the file it polls. *)
Definition registered (s : State) : Prop :=
  ∀ h f, timers s !! h = Some f → pollIntervalsRef s !! f = Some h.

End Poller.

(** ** The chat controller ([GeneralChat.jsx]) *)

Module Chat.

(** [String.prototype.trim].  A string is the sequence of its code units;
    the white space and line terminators of ECMAScript that fit in a
    code unit below 256 are TAB, LF, VT, FF, CR, SP and NBSP. *)
Definition is_space (c : ascii) : bool :=
  let n := nat_of_ascii c in
  ((9 <=? n)%nat && (n <=? 13)%nat) || (n =? 32)%nat || (n =? 160)%nat.

Fixpoint trim_start (s : string) : string :=
  match s with
  | EmptyString => EmptyString
  | String c s' => if is_space c then trim_start s' else s
  end.

Fixpoint trim_end (s : string) : string :=
  match s with
  | EmptyString => EmptyString
  | String c s' =>
      match trim_end s' with
      | EmptyString => if is_space c then EmptyString else String c EmptyString
      | r => String c r
      end
  end.

Definition trim (s : string) : string := trim_end (trim_start s).

(** An element of [messages]. *)
Record Message := mkMessage {
  message : string;
  is_user_message : bool;
  create_at : string;
  documents_used : option (list string)
}.

(** An element of the file list, as far as the chat reads it. *)
Record File := mkFile {
  file_id : string;
  file_name : string;
  processed : bool
}.

(** The [useState] cells of one mounted controller that [handleSubmit]
    reads or writes.  [showingLetters] is the value last handed to
    [setShowingLetters] of the typing-animation hook, lines 174 and 205. *)
Record State := mkState {
  question : string;
  isLoading : bool;
  messages : list Message;
  showingLetters : bool;
  language : string;
  model : string
}.

(** The component's props: [onCreateSession] and [onSessionUpdate] record
    whether the callback is passed. *)
Record Props := mkProps {
  sessionId : option positive;
  onCreateSession : bool;
  onSessionUpdate : bool
}.

Inductive Effect :=
| Alert (msg : string)
| CreateSession
| PostMessage (target : positive) (content lang mdl : string)
| SessionUpdate.

(** A network call is anything that leaves the browser. *)
Definition is_network (e : Effect) : bool :=
  match e with
  | Alert _ => false
  | CreateSession | PostMessage _ _ _ _ | SessionUpdate => true
  end.

(** [response.data.ai_response] of a successful send. *)
Record AiResponse := mkAiResponse {
  content : string;
  created_at : string;
  ai_documents_used : option (list string)
}.

(** Outcome of the awaited send: the reply, or a rejection whose
    [error.response?.data?.detail] is [detail]. *)
Inductive PostResult :=
| PostOk (r : AiResponse)
| PostFailed (detail : option string).

Definition generic_error : string := "An error occurred. Please try again.".

(** Where [handleSubmit] stands when it reaches the send request. *)
Inductive Begun :=
| Aborted (s : State) (fx : list Effect)
| Sent (s : State) (fx : list Effect).

(** [question_p.trim() || question.trim()], line 152. *)
Definition finalQuestion (question_p : string) (s : State) : string :=
  if truthy (trim question_p) then trim question_p else trim (question s).

(** [handleSubmit], lines 144-193: everything up to the awaited send.
    [includedFiles] is [processedFiles] of the file-helper hook,
    [created] what awaiting [onCreateSession()] yields, [now] the ISO
    time stamp taken for the user message. *)
Definition handleSubmit_begin (props : Props) (includedFiles : list File)
    (question_p : string) (created : option positive) (now : string)
    (s : State) : Begun :=
  let activeFilesCount := length includedFiles in
  if (activeFilesCount =? 0)%nat then
    Aborted s [Alert "Please add at least one document to the knowledge base first."]
  else
    let finalQuestion := finalQuestion question_p s in
    if negb (truthy finalQuestion) then
      Aborted s [Alert "Please enter a question."]
    else
      let create := negb (bool_decide (is_Some (sessionId props))) && onCreateSession props in
      let targetSessionId := if create then created else sessionId props in
      let fx := if create then [CreateSession] else [] in
      match targetSessionId with
      | None =>
          if create
          then Aborted s (fx ++ [Alert "Failed to create chat session."])
          else Aborted s fx
      | Some target =>
          Sent (mkState ""
                        true
                        (messages s ++ [mkMessage finalQuestion true now None])
                        false
                        (language s) (model s))
               (fx ++ [PostMessage target finalQuestion (language s) (model s)])
      end.

(** [handleSubmit], lines 194-223: what happens once the send settles.
    The two [setMessages] here are functional updates, applied to the
    list current at that time; [now] is the time stamp of the error
    message. *)
Definition handleSubmit_settle (props : Props) (result : PostResult)
    (now : string) (s : State) : State * list Effect :=
  match result with
  | PostOk aiResponse =>
      (mkState (question s)
               false
               (messages s ++ [mkMessage (content aiResponse) false
                                 (created_at aiResponse) (ai_documents_used aiResponse)])
               true
               (language s) (model s),
       if onSessionUpdate props then [SessionUpdate] else [])
  | PostFailed detail =>
      (mkState (question s)
               false
               (messages s ++ [mkMessage (or_default detail generic_error) false now None])
               (showingLetters s)
               (language s) (model s),
       [])
  end.

(** A message of [GET /api/general-chat/sessions/{id}]. *)
Record SessionMessage := mkSessionMessage {
  sm_content : string;
  sm_is_user_message : bool;
  sm_created_at : string;
  sm_documents_used : option (list string)
}.

(** A controller as it is mounted, lines 26-31; [showing] is what the
    typing-animation hook starts [showingLetters] with. *)
Definition initialState (showing : bool) : State :=
  mkState "" false [] showing "Auto-detect" "Mistral".

(** What the effect of lines 102-132 leaves in [messages]: nothing
    without a session id, the session's messages in the local shape when
    the request succeeds ([response] is [None] when it throws), nothing
    when it fails. *)
Definition loadSessionMessages (sessionId : option positive)
    (response : option (list SessionMessage)) (s : State) : State :=
  let loaded :=
    match sessionId, response with
    | Some _, Some msgs =>
        List.map (λ msg, mkMessage (sm_content msg) (sm_is_user_message msg)
                           (sm_created_at msg) (sm_documents_used msg)) msgs
    | _, _ => []
    end in
  mkState (question s) (isLoading s) loaded (showingLetters s) (language s) (model s).

(** The whole of [handleSubmit] as the page shows it, with nothing else
    touching the state while the send is in flight.  The result is the
    state of the controller on the page when the handler ends.  With a
    session id in the props that is the instance that ran the handler.
    Without one the handler got its id from [onCreateSession], which the
    page binds to [createNewSession]: that raises [chatKey], the key of the
    controller, so the instance that ran the handler is unmounted, what it
    wrote to its state is lost, and the controller on the page is the
    instance mounted in its place, whose state is [remounted]. *)
Definition handleSubmit (props : Props) (includedFiles : list File)
    (question_p : string) (created : option positive) (remounted : State)
    (now : string) (result : PostResult) (now' : string) (s : State)
  : State * list Effect :=
  match handleSubmit_begin props includedFiles question_p created now s with
  | Aborted s' fx => (s', fx)
  | Sent s' fx =>
      let '(s'', fx') := handleSubmit_settle props result now' s' in
      if bool_decide (is_Some (sessionId props))
      then (s'', fx ++ fx')
      else (remounted, fx ++ fx')
  end.

(** *** Deferred question (lines 226-256) *)

(** The flag in [hasHandledPendingRef.current], [location.state?.question],
    the [pendingQuestion] item of local storage, and the [handleSubmit]
    calls handed to [setTimeout] so far, each with its delay. *)
Record Handoff := mkHandoff {
  hasHandledPendingRef : bool;
  stateQuestion : option string;
  pendingQuestion : option string;
  scheduled : list (Z * string)
}.

(** One run of the effect. *)
Definition pendingEffect (filesIsLoading : bool) (h : Handoff) : Handoff :=
  if filesIsLoading then h
  else if hasHandledPendingRef h then h
  else
    match or_else (stateQuestion h) (pendingQuestion h) with
    | Some questionToAsk =>
        if truthy questionToAsk then
          mkHandoff true
                    (if truthy_opt (stateQuestion h) then None else stateQuestion h)
                    (if truthy_opt (pendingQuestion h) then None else pendingQuestion h)
                    (scheduled h ++ [(100, questionToAsk)])
        else h
    | None => h
    end.

(** What can happen to a mounted controller as far as the handoff goes:
    the effect runs, or something outside it writes the navigation state
    or the local-storage item. *)
Inductive Event :=
| EffectRuns (filesIsLoading : bool)
| NavigationState (q : option string)
| StorageItem (q : option string).

Definition on_event (e : Event) (h : Handoff) : Handoff :=
  match e with
  | EffectRuns l => pendingEffect l h
  | NavigationState q => mkHandoff (hasHandledPendingRef h) q (pendingQuestion h) (scheduled h)
  | StorageItem q => mkHandoff (hasHandledPendingRef h) (stateQuestion h) q (scheduled h)
  end.

Definition run (es : list Event) (h : Handoff) : Handoff :=
  foldl (λ acc e, on_event e acc) h es.

(** A freshly mounted controller: flag down, nothing scheduled. *)
Definition mounted (nav stored : option string) : Handoff :=
  mkHandoff false nav stored [].

(** What stays true of the handoff whatever happens: nothing is
    scheduled while the flag is down, at most one submission is ever
    scheduled, and it carries the 100 ms delay and a non-empty question. *)
Definition handoff_inv (h : Handoff) : Prop :=
  (hasHandledPendingRef h = false → scheduled h = [])
  ∧ (length (scheduled h) ≤ 1)%nat
  ∧ (∀ d q, (d, q) ∈ scheduled h → d = 100 ∧ q ≠ "").

End Chat.

(** ** The session list (chat page) *)

Module Sessions.

Record Session := mkSession {
  id : positive;
  title : string;
  updated_at : string
}.

Record State := mkState {
  sessions : list Session;
  activeSessionId : option positive;
  isLoadingSessions : bool;
  chatKey : nat
}.

(** [fetchSessions], lines 42-60.  [response] is the roster, or [None]
    when the request throws.  [captured] and [stateQuestion] are the
    [activeSessionId] and [location.state?.question] of the render in which
    the callback was built ([useCallback], line 60): the values it tests,
    which are not those of the state it is applied to when a session was
    created or selected after that render.  [stored] is the
    [pendingQuestion] item of local storage, read when the request has
    returned.  Session ids are the server's, taken as positive numbers. *)
Definition fetchSessions (captured : option positive)
    (response : option (list Session))
    (stateQuestion stored : option string) (s : State) : State :=
  match response with
  | None => mkState (sessions s) (activeSessionId s) false (chatKey s)
  | Some data =>
      let pendingQ := or_else stateQuestion stored in
      let active :=
        if negb (bool_decide (is_Some captured))
           && (0 <? length data)%nat
           && negb (truthy_opt pendingQ)
        then id <$> data !! 0%nat
        else activeSessionId s in
      mkState data active false (chatKey s)
  end.

(** [createNewSession], lines 67-79. *)
Definition createNewSession (response : option Session) (s : State)
  : State * option positive :=
  match response with
  | Some newSession =>
      (mkState (newSession :: sessions s) (Some (id newSession))
               (isLoadingSessions s) (S (chatKey s)),
       Some (id newSession))
  | None => (s, None)
  end.

Definition without (sessionId : positive) (l : list Session) : list Session :=
  filter (λ x, id x ≠ sessionId) l.

(** [deleteSession], lines 82-103.  [confirmed] is the answer to
    [window.confirm], [deleted] whether the delete request succeeded.
    [roster] is what the functional [setSessions] computes and [remaining]
    what the callback computes from its own [sessions]; both start from
    the state the handler is applied to. *)
Definition deleteSession (sessionId : positive) (confirmed deleted : bool)
    (s : State) : State :=
  if negb confirmed then s
  else if negb deleted then s
  else
    let roster := without sessionId (sessions s) in
    if bool_decide (activeSessionId s = Some sessionId) then
      let remaining := without sessionId (sessions s) in
      match remaining with
      | first :: _ =>
          mkState roster (Some (id first)) (isLoadingSessions s) (S (chatKey s))
      | [] =>
          mkState roster None (isLoadingSessions s) (chatKey s)
      end
    else mkState roster (activeSessionId s) (isLoadingSessions s) (chatKey s).


End Sessions.

(** ** The handlers around the poller *)

Module Handlers.
Import Poller.

(** Outcome of [GET /api/document/process/{fileId}]: the payload, or a
    rejection whose [error.response?.data?.detail] is [detail]. *)
Inductive ProcessResult :=
| ProcessOk (result : StatusData)
| ProcessFailed (detail : option string).

(** What a handler shows or asks for: the poller's effects and the info
    toast. *)
Inductive Notice :=
| ToastInfo (msg title : string)
| Did (e : Effect).

(** [setFileStatuses(prev => ({ ...prev, [fileId]: entry }))]. *)
Definition track (fileId : string) (entry : FileStatus) (s : State) : State :=
  mkState (<[fileId := entry]> (fileStatuses s)) (pollIntervalsRef s) (timers s).

(** The statuses of the process endpoint for which polling is started. *)
Definition starts_polling (st : string) : bool :=
  String.eqb st "processing" || String.eqb st "started" || String.eqb st "pending".

(** [handleFileProcess], [chatDashboard.jsx] lines 275-329, which is also
    the body of [handleProcessFile], [GeneralChat.jsx] lines 338-395.
    [clicked] is the clock when tracking begins, [answer] the outcome of
    the process request, [h] the handle [setInterval] returns if polling
    is started, and [response], [t0], [t1] the inputs of the immediate
    [pollStatus].  No other handler runs while a request is in flight. *)
Definition handleFileProcess (fileId : string) (clicked : Z)
    (answer : ProcessResult) (h : positive) (response : option StatusData)
    (t0 t1 : Z) (s : State) : State * list Notice :=
  let s1 :=
    track fileId
      (mkFileStatus "processing" (Some "Starting processing...") None (Some clicked)) s in
  let fx1 := [ToastInfo "Processing started. This may take a few moments..." "Processing"] in
  match answer with
  | ProcessOk result =>
      if String.eqb (sd_status result) "completed" then
        (track fileId
           (mkFileStatus (sd_status result) (sd_message result) (sd_error result)
              (fileStatuses s1 !! fileId ≫= startTime)) s1,
         fx1 ++ [Did FetchFiles;
                 Did (ToastSuccess "Document processed successfully!" "Complete")])
      else if starts_polling (sd_status result) then
        let s2 :=
          track fileId
            (mkFileStatus "processing"
               (Some (or_default (sd_message result) "Processing document..."))
               (sd_error result)
               (fileStatuses s1 !! fileId ≫= startTime)) s1 in
        let s3 := startPolling fileId h s2 in
        let o := pollStatus fileId response t0 t1 s3 in
        (next o, fx1 ++ List.map Did (effects o))
      else (s1, fx1)
  | ProcessFailed detail =>
      (track fileId
         (mkFileStatus "failed" None
            (Some (or_default detail "Failed to start processing")) None) s1,
       fx1 ++ [Did (ToastError
                      (or_default detail "Failed to start processing. Please try again.")
                      "Processing Failed")])
  end.

(** [handleProcessFile] of [GeneralChat.jsx]: the same, with the
    [processing] flags raised after the first update and lowered in the
    [finally] block. *)
Definition handleProcessFile (fileId : string) (clicked : Z)
    (answer : ProcessResult) (h : positive) (response : option StatusData)
    (t0 t1 : Z) (s : State) (processing : gmap string bool)
  : State * gmap string bool * list Notice :=
  let '(s', fx) := handleFileProcess fileId clicked answer h response t0 t1 s in
  (s', <[fileId := false]> (<[fileId := true]> processing), fx).

(** The ids collected by the initial sweep: those of the files not marked
    processed, list by list ([GeneralChat.jsx] lines 68-76,
    [chatDashboard.jsx] lines 169-177). *)
Definition unprocessedIds (filesData : list (string * list Chat.File)) : list string :=
  flat_map
    (λ group, List.map Chat.file_id
                (List.filter (λ f, negb (Chat.processed f)) (snd group)))
    filesData.

(** What the [i]-th turn of the sweep's loop gets from outside: the
    outcome of its status request, the clock, and the handle [setInterval]
    would return. *)
Record Probe := mkProbe {
  probe_response : option StatusData;
  probe_now : Z;
  probe_handle : positive
}.

(** One turn of the loop, lines 80-94 / 181-195. *)
Definition checkOne (fileId : string) (p : Probe) (s : State) : State :=
  match probe_response p with
  | Some statusData =>
      if String.eqb (sd_status statusData) "processing" then
        startPolling fileId (probe_handle p)
          (track fileId
             (mkFileStatus (sd_status statusData) (sd_message statusData)
                (sd_error statusData) (Some (probe_now p))) s)
      else s
  | None => s
  end.

Fixpoint sweep (env : nat → Probe) (i : nat) (ids : list string) (s : State) : State :=
  match ids with
  | [] => s
  | fileId :: rest => sweep env (S i) rest (checkOne fileId (env i) s)
  end.

(** [checkInitialStatuses] under the guard of its effect, lines 64-99 /
    165-200.  [filesData] is [None] before the file list has arrived. *)
Definition checkInitialStatuses (filesData : option (list (string * list Chat.File)))
    (filesIsLoading : bool) (env : nat → Probe) (s : State) : State :=
  match filesData with
  | None => s
  | Some data => if filesIsLoading then s else sweep env 0 (unprocessedIds data) s
  end.

(** The handles the sweep is given are not those of active timers. *)
Fixpoint sweep_fresh (env : nat → Probe) (i : nat) (ids : list string) (s : State) : Prop :=
  match ids with
  | [] => True
  | fileId :: rest =>
      timers (stopPolling fileId s) !! probe_handle (env i) = None
      ∧ sweep_fresh env (S i) rest (checkOne fileId (env i) s)
  end.

Inductive DeleteResult :=
| Deleted
| DeleteFailed (detail : option string).

(** [handleFileDelete], [chatDashboard.jsx] lines 87-114, without the
    [deletingIndex] cell, which is set on entry and cleared on exit. *)
Definition handleFileDelete (fileId : string) (answer : DeleteResult) (s : State)
  : State * list Notice :=
  match answer with
  | Deleted =>
      let s1 := stopPolling fileId s in
      (mkState (delete fileId (fileStatuses s1)) (pollIntervalsRef s1) (timers s1),
       [Did FetchFiles; Did (ToastSuccess "File deleted successfully" "Deleted")])
  | DeleteFailed detail =>
      (s, [Did (ToastError (or_default detail "Failed to delete file. Please try again.")
                  "Delete Failed")])
  end.

(** The registry and the timer table say the same: a handle is registered
    for a file exactly when it is a live timer polling that file. *)
Definition agree (s : State) : Prop :=
  ∀ f h, pollIntervalsRef s !! f = Some h ↔ timers s !! h = Some f.

(** Nothing about file [g] differs between [s] and [s']: its tracked
    entry, its registered handle, and the live timers polling it. *)
Definition untouched (g : string) (s s' : State) : Prop :=
  fileStatuses s' !! g = fileStatuses s !! g
  ∧ pollIntervalsRef s' !! g = pollIntervalsRef s !! g
  ∧ (∀ h, timers s' !! h = Some g ↔ timers s !! h = Some g).

End Handlers.

(** ** The file list of the dashboard ([chatDashboard.jsx]) *)

Module Dashboard.
Import Poller.

(** An element of the file list.  [upload_date] is the time value, in
    milliseconds, of [new Date(file.upload_date)]. *)
Record FileEntry := mkFileEntry {
  id : string;
  file_name : string;
  processed : bool;
  upload_date : Z
}.

(** [Array.prototype.sort] with a comparator.  The sort is stable, and
    for a consistent comparator its result is the one stable sorted
    arrangement of the array; inserting the elements from the right, each
    before the first element it does not come after, computes it. *)
Fixpoint insert_by {A : Type} (cmp : A → A → Z) (x : A) (l : list A) : list A :=
  match l with
  | [] => [x]
  | y :: l' => if cmp x y <=? 0 then x :: l else y :: insert_by cmp x l'
  end.

Definition sort_by {A : Type} (cmp : A → A → Z) (l : list A) : list A :=
  foldr (insert_by cmp) [] l.

(** [getFileDisplayStatus], lines 332-346. *)
Definition getFileDisplayStatus (fileStatuses : gmap string FileStatus)
    (file : FileEntry) : FileStatus :=
  match fileStatuses !! id file with
  | Some statusInfo => statusInfo
  | None =>
      if processed file
      then mkFileStatus "completed" None None None
      else mkFileStatus "pending" None None None
  end.

(** [isAProcessed] of the comparator, line 355. *)
Definition countsAsProcessed (fileStatuses : gmap string FileStatus)
    (file : FileEntry) : bool :=
  processed file
  || String.eqb (status (getFileDisplayStatus fileStatuses file)) "completed".

(** The comparator of [sortFiles], lines 350-366. *)
Definition compareFiles (fileStatuses : gmap string FileStatus)
    (a b : FileEntry) : Z :=
  let isAProcessed := countsAsProcessed fileStatuses a in
  let isBProcessed := countsAsProcessed fileStatuses b in
  if negb (Bool.eqb isAProcessed isBProcessed) then
    if isAProcessed then 1 else -1
  else upload_date b - upload_date a.

(** [sortFiles], lines 349-367. *)
Definition sortFiles (fileStatuses : gmap string FileStatus)
    (fileList : list FileEntry) : list FileEntry :=
  sort_by (compareFiles fileStatuses) fileList.

(** The flags computed for a row, lines 549-550 and 597-602. *)
Definition isUnprocessed (fileStatuses : gmap string FileStatus)
    (file : FileEntry) : bool :=
  negb (processed file)
  && negb (String.eqb (status (getFileDisplayStatus fileStatuses file)) "completed").

Definition isProcessing (fileStatuses : gmap string FileStatus)
    (file : FileEntry) : bool :=
  String.eqb (status (getFileDisplayStatus fileStatuses file)) "processing".

Definition isCompleted (fileStatuses : gmap string FileStatus)
    (file : FileEntry) : bool :=
  String.eqb (status (getFileDisplayStatus fileStatuses file)) "completed"
  || processed file.

Definition isFailed (fileStatuses : gmap string FileStatus)
    (file : FileEntry) : bool :=
  String.eqb (status (getFileDisplayStatus fileStatuses file)) "failed".

Definition isPending (fileStatuses : gmap string FileStatus)
    (file : FileEntry) : bool :=
  String.eqb (status (getFileDisplayStatus fileStatuses file)) "pending"
  && negb (processed file).

(** Whether the process button is rendered, line 627. *)
Definition showsProcessButton (fileStatuses : gmap string FileStatus)
    (file : FileEntry) : bool :=
  negb (isCompleted fileStatuses file) && negb (isProcessing fileStatuses file).

(** The captions rendered inside the button, lines 638-649. *)
Definition buttonCaptions (fileStatuses : gmap string FileStatus)
    (file : FileEntry) : list string :=
  (if isPending fileStatuses file then ["Process"] else [])
  ++ (if isFailed fileStatuses file then ["Retry"] else []).

(** The counters of a section header, lines 521-526. *)
Definition unprocessedCount (fileStatuses : gmap string FileStatus)
    (fileList : list FileEntry) : Z :=
  Z.of_nat (length (List.filter (isUnprocessed fileStatuses) fileList)).

Definition processedCount (fileStatuses : gmap string FileStatus)
    (fileList : list FileEntry) : Z :=
  Z.of_nat (length fileList) - unprocessedCount fileStatuses fileList.

Section Filter.

(** [String.prototype.toUpperCase], left open. *)
Variable toUpperCase : string → string.

(** The memoised [getFilteredAndSortedFiles], lines 370-384.  [files] is
    the file list by type, in the order of [Object.entries], or [None]
    before it has arrived; [fileStatuses] is the one of the render in
    which the memo was last computed. *)
Definition getFilteredAndSortedFiles (files : option (list (string * list FileEntry)))
    (selectedFileType : string) (fileStatuses : gmap string FileStatus)
  : list (string * list FileEntry) :=
  match files with
  | None => []
  | Some groups =>
      List.map (λ group, (fst group, sortFiles fileStatuses (snd group)))
        (List.filter
           (λ group, String.eqb selectedFileType "ALL"
                     || String.eqb (toUpperCase (fst group)) selectedFileType)
           groups)
  end.

(** The default comparison of [sort()]: by code units. *)
Definition compareStrings (a b : string) : Z :=
  match String.compare a b with
  | Lt => -1
  | Eq => 0
  | Gt => 1
  end.

(** [getAvailableFileTypes], lines 387-390. *)
Definition getAvailableFileTypes (files : option (list (string * list FileEntry)))
  : list string :=
  match files with
  | None => []
  | Some groups => "ALL" :: sort_by compareStrings (List.map (λ g, toUpperCase (fst g)) groups)
  end.

End Filter.

(** The order the comparator induces: [a] does not come after [b]. *)
Definition notAfter (fileStatuses : gmap string FileStatus) (a b : FileEntry) : Prop :=
  compareFiles fileStatuses a b ≤ 0.

End Dashboard.

(** ** The landing page *)

Module ChatView.
Import Chat.

(** Where [handleQuestionSubmit] of the landing page leaves the question. *)
Inductive Leaving :=
| Stay
| ToChat (question : string)
| ToLogin (stored : string).

(** [handleQuestionSubmit] of the landing page.  [token] and [user] say
    whether the values of the auth store are truthy. *)
Definition handleQuestionSubmit (question : string) (token user : bool) : Leaving :=
  if negb (truthy (trim question)) then Stay
  else if token && user then ToChat question
  else ToLogin question.

(** The handoff as a controller mounted afterwards finds it: the question
    in the navigation state, or in the [pendingQuestion] item of local
    storage, provided nothing else wrote them in between. *)
Definition arrival (l : Leaving) : Handoff :=
  match l with
  | Stay => mounted None None
  | ToChat question => mounted (Some question) None
  | ToLogin stored => mounted None (Some stored)
  end.

(** The string is empty or begins with a character that is not white
    space. *)
Definition starts_clean (s : string) : Prop :=
  match s with
  | EmptyString => True
  | String c _ => is_space c = false
  end.

End ChatView.

(** ** The session list as the page drives it *)

Module SessionActions.
Import Sessions.

(** The label [formatDate] renders, lines 114-123.  [DaysAgo n] stands
    for the text of [n] followed by [days ago], [LocaleDate] for what
    [toLocaleDateString] gives. *)
Inductive DateLabel :=
| Today
| Yesterday
| DaysAgo (n : Z)
| LocaleDate (date : Z).

Definition dayMs : Z := 1000 * 60 * 60 * 24.

(** [formatDate].  [date] and [now] are the time values of the two [Date]
    objects, in milliseconds; [Math.floor] of the quotient of their
    difference by the length of a day is the integer quotient as long as
    the two dates are less than a hundred million days apart. *)
Definition formatDate (date now : Z) : DateLabel :=
  let diffDays := (now - date) / dayMs in
  if diffDays =? 0 then Today
  else if diffDays =? 1 then Yesterday
  else if diffDays <? 7 then DaysAgo diffDays
  else LocaleDate date.





End SessionActions.

(** * The model on the scenarios of the specification *)

Section Scenarios.

(** [trim] drops white space at both ends and nothing inside. *)
Example trim_hello : Chat.trim "  Hello  world " = "Hello  world".
Proof. reflexivity. Qed.

Example trim_blank :
  Chat.trim (String (ascii_of_nat 9) (String (ascii_of_nat 10) " ")) = "".
Proof. reflexivity. Qed.

(** File [f1] is being processed; the status endpoint answers
    ['processing'], ['processing'], ['completed'] on three ticks 3 s
    apart: no toast on the first two, then the refetch and the success
    toast, and no handle or timer is left. *)
Example three_polls_until_completed :
  let s0 :=
    Poller.step (Poller.OpStart "f1" 1%positive)
      (Poller.step
         (Poller.OpTrack "f1"
            (Poller.mkFileStatus "processing" (Some "Starting processing...") None
               (Some 1000)))
         Poller.init) in
  let o1 := Poller.pollStatus "f1"
              (Some (Poller.mkStatusData "processing" None None)) 4000 4000 s0 in
  let o2 := Poller.pollStatus "f1"
              (Some (Poller.mkStatusData "processing" None None)) 7000 7000
              (Poller.next o1) in
  let o3 := Poller.pollStatus "f1"
              (Some (Poller.mkStatusData "completed" None None)) 10000 10000
              (Poller.next o2) in
  Poller.effects o1 = []
  ∧ Poller.effects o2 = []
  ∧ Poller.effects o3
    = [Poller.FetchFiles;
       Poller.ToastSuccess "Document processed successfully! Ready to chat." "Complete"]
  ∧ Poller.pollIntervalsRef (Poller.next o3) = ∅
  ∧ Poller.timers (Poller.next o3) = ∅
  ∧ Poller.fileStatuses (Poller.next o3) !! "f1"
    = Some (Poller.mkFileStatus "completed" None None (Some 1000)).
Proof. repeat split. Qed.

(** A file seen ['completed'] on its first observation: refetch, no toast. *)
Example completed_on_first_observation :
  Poller.effects
    (Poller.pollStatus "f2" (Some (Poller.mkStatusData "completed" None None))
       5000 5000 Poller.init)
  = [Poller.FetchFiles].
Proof. reflexivity. Qed.

(** A session is selected and the user submits "Hello": the user message
    is in the list at once and the reply follows it. *)
Example hello_with_a_session :
  let s := Chat.mkState "Hello" false [] true "Auto-detect" "Mistral" in
  let files := [Chat.mkFile "12" "rules.pdf" true] in
  let props := Chat.mkProps (Some 4%positive) true true in
  let reply := Chat.mkAiResponse "Hi!" "2026-01-01T00:00:02.000Z" (Some ["rules.pdf"]) in
  Chat.handleSubmit_begin props files "" None "2026-01-01T00:00:00.000Z" s
  = Chat.Sent
      (Chat.mkState "" true
         [Chat.mkMessage "Hello" true "2026-01-01T00:00:00.000Z" None]
         false "Auto-detect" "Mistral")
      [Chat.PostMessage 4 "Hello" "Auto-detect" "Mistral"]
  ∧ Chat.handleSubmit props files "" None (Chat.initialState false)
      "2026-01-01T00:00:00.000Z" (Chat.PostOk reply) "" s
    = (Chat.mkState "" false
         [Chat.mkMessage "Hello" true "2026-01-01T00:00:00.000Z" None;
          Chat.mkMessage "Hi!" false "2026-01-01T00:00:02.000Z" (Some ["rules.pdf"])]
         true "Auto-detect" "Mistral",
       [Chat.PostMessage 4 "Hello" "Auto-detect" "Mistral"; Chat.SessionUpdate]).
Proof. split; reflexivity. Qed.

(** No session yet, the user submits "Hello": a session is asked for and
    the message is sent to it, and the controller on the page is then the
    one mounted for the new session, here with the empty history the
    server had for it. *)
Example hello_with_session_created_on_demand :
  let s := Chat.mkState "Hello" false [] true "Auto-detect" "Mistral" in
  let files := [Chat.mkFile "12" "rules.pdf" true] in
  let props := Chat.mkProps None true true in
  let reply := Chat.mkAiResponse "Hi!" "2026-01-01T00:00:02.000Z" (Some ["rules.pdf"]) in
  let remounted :=
    Chat.loadSessionMessages (Some 4%positive) (Some []) (Chat.initialState false) in
  Chat.handleSubmit props files "" (Some 4%positive) remounted
    "2026-01-01T00:00:00.000Z" (Chat.PostOk reply) "" s
  = (Chat.mkState "" false [] false "Auto-detect" "Mistral",
     [Chat.CreateSession; Chat.PostMessage 4 "Hello" "Auto-detect" "Mistral";
      Chat.SessionUpdate]).
Proof. reflexivity. Qed.

End Scenarios.

(** * Properties of the status poller *)

Section PollerFacts.
Import Poller.

Implicit Types (s : State) (f : string) (h : positive).

Lemma stopPolling_fileStatuses f s :
  fileStatuses (stopPolling f s) = fileStatuses s.
Proof. unfold stopPolling. by destruct (pollIntervalsRef s !! f). Qed.

Lemma stopPolling_handle_gone f s :
  pollIntervalsRef (stopPolling f s) !! f = None.
Proof.
  unfold stopPolling.
  destruct (pollIntervalsRef s !! f) eqn:E; simpl; [apply lookup_delete_eq | done].
Qed.

Lemma stopPolling_timer_cleared f h s :
  pollIntervalsRef s !! f = Some h → timers (stopPolling f s) !! h = None.
Proof.
  intros E. unfold stopPolling, clearInterval. rewrite E. simpl.
  apply lookup_delete_eq.
Qed.

Lemma stopPolling_absent f s :
  pollIntervalsRef s !! f = None → stopPolling f s = s.
Proof. intros E. unfold stopPolling. by rewrite E. Qed.

Lemma stopPolling_twice f s :
  stopPolling f (stopPolling f s) = stopPolling f s.
Proof. apply stopPolling_absent, stopPolling_handle_gone. Qed.

(** Stopping one file leaves the handles and timers of the others. *)
Lemma stopPolling_other_handle f g s :
  f ≠ g → pollIntervalsRef (stopPolling f s) !! g = pollIntervalsRef s !! g.
Proof.
  intros Hne. unfold stopPolling.
  destruct (pollIntervalsRef s !! f); simpl; [by apply lookup_delete_ne | done].
Qed.

Lemma stopPolling_timers_sub f h g s :
  timers (stopPolling f s) !! h = Some g → timers s !! h = Some g.
Proof.
  unfold stopPolling, clearInterval.
  destruct (pollIntervalsRef s !! f) as [h0|]; simpl; [|done].
  rewrite lookup_delete. by case_decide.
Qed.

Lemma stopPolling_registered f s :
  registered s → registered (stopPolling f s).
Proof.
  intros Hreg h g Hlive.
  pose proof (stopPolling_timers_sub _ _ _ _ Hlive) as Hold.
  apply Hreg in Hold.
  destruct (decide (f = g)) as [->|Hne].
  - apply stopPolling_timer_cleared in Hold. congruence.
  - by rewrite stopPolling_other_handle.
Qed.

(** With the invariant, stopping a file leaves no live timer polling it. *)
Lemma stopPolling_no_timer f h s :
  registered s → timers (stopPolling f s) !! h ≠ Some f.
Proof.
  intros Hreg Hlive.
  apply (stopPolling_registered f) in Hreg. apply Hreg in Hlive.
  rewrite stopPolling_handle_gone in Hlive. discriminate.
Qed.

Lemma startPolling_registered f h s :
  registered s → registered (startPolling f h s).
Proof.
  intros Hreg h' g. unfold startPolling. simpl.
  rewrite lookup_insert. case_decide as Hh.
  - intros [= <-]. subst h'. apply lookup_insert_eq.
  - intros Hlive. pose proof (stopPolling_no_timer f h' s Hreg) as Hno.
    assert (f ≠ g) as Hne by congruence.
    rewrite lookup_insert_ne by done.
    by apply (stopPolling_registered f s Hreg).
Qed.

Lemma pollStatus_handles f r t0 t1 s :
  (pollIntervalsRef (next (pollStatus f r t0 t1 s)) = pollIntervalsRef s
   ∧ timers (next (pollStatus f r t0 t1 s)) = timers s)
  ∨ (pollIntervalsRef (next (pollStatus f r t0 t1 s)) = pollIntervalsRef (stopPolling f s)
     ∧ timers (next (pollStatus f r t0 t1 s)) = timers (stopPolling f s)).
Proof.
  unfold pollStatus. destruct r as [sd|]; [|by left].
  destruct (POLL_TIMEOUT <? _); [by right|].
  destruct (is_terminal _); [by right | by left].
Qed.

Lemma pollStatus_registered f r t0 t1 s :
  registered s → registered (next (pollStatus f r t0 t1 s)).
Proof.
  intros Hreg h g.
  destruct (pollStatus_handles f r t0 t1 s) as [[-> ->]|[-> ->]].
  - apply Hreg.
  - by apply stopPolling_registered.
Qed.

Lemma unmount_timers_sub s h g :
  timers (unmount s) !! h = Some g → timers s !! h = Some g.
Proof.
  unfold unmount. simpl.
  apply (map_fold_weak_ind
           (λ (t : gmap positive string) (_ : gmap string positive),
              t !! h = Some g → timers s !! h = Some g)); [done|].
  intros k h0 m t _ IH. unfold clearInterval.
  rewrite lookup_delete. case_decide; [done | apply IH].
Qed.

Lemma unmount_registered s : registered s → registered (unmount s).
Proof.
  intros Hreg h g Hlive. apply unmount_timers_sub in Hlive. by apply Hreg.
Qed.

Lemma step_registered op s : registered s → registered (step op s).
Proof.
  destruct op; simpl; intros Hreg.
  - exact Hreg.
  - exact Hreg.
  - by apply startPolling_registered.
  - by apply stopPolling_registered.
  - by apply pollStatus_registered.
  - by apply unmount_registered.
Qed.

Lemma reachable_registered s : reachable s → registered s.
Proof.
  induction 1 as [|op s _ IH _].
  - intros h g. unfold init. simpl. by rewrite lookup_empty.
  - by apply step_registered.
Qed.

End PollerFacts.

Section PollerTimers.
Import Poller.

(** C1.  In every state the component can reach, at most one live
    interval timer polls a given file id.  [startPolling fileId] first
    cancels the timer registered for [fileId] (it is no longer live once
    [stopPolling] has run, before [setInterval] is called) and afterwards
    the new handle is the registered one and the only live timer for
    [fileId].  [stopPolling fileId] removes the handle and leaves no live
    timer for [fileId]; when no handle is registered it returns the state
    as it is, and running it twice is the same as running it once. *)
Theorem one_live_timer_per_file (s : State) (fileId : string) (h : positive) :
  reachable s →
  allowed (OpStart fileId h) s →
  (∀ f h1 h2, timers s !! h1 = Some f → timers s !! h2 = Some f → h1 = h2)
  ∧ (∀ h0, pollIntervalsRef s !! fileId = Some h0 →
           timers (stopPolling fileId s) !! h0 = None
           ∧ (h0 ≠ h → timers (startPolling fileId h s) !! h0 = None))
  ∧ pollIntervalsRef (startPolling fileId h s) !! fileId = Some h
  ∧ (∀ h', timers (startPolling fileId h s) !! h' = Some fileId ↔ h' = h)
  ∧ pollIntervalsRef (stopPolling fileId s) !! fileId = None
  ∧ (∀ h', timers (stopPolling fileId s) !! h' ≠ Some fileId)
  ∧ (pollIntervalsRef s !! fileId = None → stopPolling fileId s = s)
  ∧ stopPolling fileId (stopPolling fileId s) = stopPolling fileId s.
Proof.
  intros Hreach Hfresh. pose proof (reachable_registered s Hreach) as Hreg.
  repeat split.
  - intros f h1 h2 H1 H2. apply Hreg in H1, H2. congruence.
  - by apply stopPolling_timer_cleared.
  - intros Hne. unfold startPolling. simpl.
    rewrite lookup_insert_ne by done. by apply stopPolling_timer_cleared.
  - unfold startPolling. simpl. apply lookup_insert_eq.
  - intros Hlive.
    apply (startPolling_registered fileId h s Hreg) in Hlive.
    unfold startPolling in Hlive. simpl in Hlive.
    rewrite lookup_insert_eq in Hlive. congruence.
  - intros ->. unfold startPolling. simpl. apply lookup_insert_eq.
  - apply stopPolling_handle_gone.
  - intros h'. by apply stopPolling_no_timer.
  - apply stopPolling_absent.
  - apply stopPolling_twice.
Qed.

Lemma one_live_timer_per_file_witness :
  let s := step (OpStart "f1" 7%positive) init in
  reachable s
  ∧ pollIntervalsRef (startPolling "f1" 9%positive s) !! "f1" = Some 9%positive
  ∧ stopPolling "f1" (stopPolling "f1" s) = stopPolling "f1" s.
Proof.
  assert (reachable (step (OpStart "f1" 7%positive) init)) as Hreach.
  { apply reachable_step; [apply reachable_init | reflexivity]. }
  split; [exact Hreach|].
  pose proof (one_live_timer_per_file
                (step (OpStart "f1" 7%positive) init) "f1" 9%positive
                Hreach eq_refl) as H.
  split; [apply H | apply H].
Defined.

End PollerTimers.

Section PollerTicks.
Import Poller.

Implicit Types (s : State) (sd : StatusData).

Lemma is_terminal_cases st :
  is_terminal st = true → st = "completed" ∨ st = "failed".
Proof.
  unfold is_terminal. intros H. apply orb_prop in H as [H|H];
    apply String.eqb_eq in H; auto.
Qed.

(** C2, as the code has it.  On a poll tick whose status request returned
    a payload, the updater compares [now - startTime] with 120000 ms,
    [startTime] being the tracked one or, when none is tracked, the clock
    itself.  If the difference is larger, whatever status the payload
    reports, the tracked entry becomes ['failed'] with the timeout
    message as its error, the handle is removed, no live timer polls the
    file any more, and the one effect is the timeout error toast.  If it
    is not larger, the tracked status is the payload's. *)
Theorem timeout_overrides_response s (fileId : string) sd (t0 t1 : Z) :
  registered s →
  let start := effective_start (fileStatuses s !! fileId) t0 in
  let o := pollStatus fileId (Some sd) t0 t1 s in
  (120000 < t1 - start →
     fileStatuses (next o) !! fileId
       = Some (mkFileStatus "failed" (sd_message sd) (Some timeout_message) (Some start))
     ∧ pollIntervalsRef (next o) !! fileId = None
     ∧ (∀ h, timers (next o) !! h ≠ Some fileId)
     ∧ effects o = [ToastError timeout_message "Timeout"])
  ∧ (t1 - start ≤ 120000 →
     status <$> fileStatuses (next o) !! fileId = Some (sd_status sd)).
Proof.
  intros Hreg start o. subst o. unfold pollStatus. fold start. split.
  - intros Hlate. apply Z.ltb_lt in Hlate. unfold POLL_TIMEOUT.
    rewrite Hlate. simpl. rewrite lookup_insert_eq.
    repeat split; [apply stopPolling_handle_gone|].
    intros h. by apply stopPolling_no_timer.
  - intros Hok. apply Z.ltb_ge in Hok. unfold POLL_TIMEOUT.
    rewrite Hok. simpl. by rewrite lookup_insert_eq.
Qed.

Lemma timeout_overrides_response_witness :
  let s := step (OpStart "f1" 1%positive)
             (step (OpTrack "f1" (mkFileStatus "processing" None None (Some 1000))) init) in
  let o := pollStatus "f1" (Some (mkStatusData "completed" None None)) 200000 200000 s in
  registered s
  ∧ fileStatuses (next o) !! "f1"
      = Some (mkFileStatus "failed" None (Some timeout_message) (Some 1000))
  ∧ effects o = [ToastError timeout_message "Timeout"].
Proof.
  assert (registered (step (OpStart "f1" 1%positive)
             (step (OpTrack "f1" (mkFileStatus "processing" None None (Some 1000))) init)))
    as Hreg.
  { apply reachable_registered.
    apply reachable_step; [|reflexivity].
    apply reachable_step; [apply reachable_init | exact I]. }
  split; [exact Hreg|].
  pose proof (timeout_overrides_response _ "f1"
                (mkStatusData "completed" None None) 200000 200000 Hreg) as [H _].
  assert (120000 < 200000 - 1000) as Hlate by lia.
  specialize (H Hlate). split; apply H.
Defined.

(** C2 as stated fails on a tick whose status request throws: 199 s after
    tracking began nothing is compared, the entry stays ['processing'],
    the timer stays live and nothing is shown. *)
Lemma timeout_not_checked_on_transport_error :
  let s := step (OpStart "f1" 1%positive)
             (step (OpTrack "f1" (mkFileStatus "processing" None None (Some 1000))) init) in
  let o := pollStatus "f1" None 200000 200000 s in
  reachable s
  ∧ POLL_TIMEOUT < 200000 - effective_start (fileStatuses s !! "f1") 200000
  ∧ status <$> fileStatuses (next o) !! "f1" = Some "processing"
  ∧ pollIntervalsRef (next o) !! "f1" = Some 1%positive
  ∧ timers (next o) !! 1%positive = Some "f1"
  ∧ effects o = [].
Proof.
  repeat split.
  apply reachable_step; [|reflexivity].
  apply reachable_step; [apply reachable_init | exact I].
Qed.

(** C3, as the code has it.  When the payload reports ['completed'] or
    ['failed'] and the tick is not past the timeout, a toast is shown if
    and only if the tracked status was ['processing']: the success toast
    for ['completed'], the error toast with the payload's error or the
    generic text for ['failed'].  A file that was not tracked at all gets
    no toast.  On ['completed'] the file list is refetched, and for both
    statuses the handle is removed and no live timer polls the file. *)
Theorem terminal_toast_iff_was_processing s (fileId : string) sd (t0 t1 : Z) :
  registered s →
  is_terminal (sd_status sd) = true →
  t1 - effective_start (fileStatuses s !! fileId) t0 ≤ POLL_TIMEOUT →
  let o := pollStatus fileId (Some sd) t0 t1 s in
  (toasts (effects o) ≠ [] ↔ wasProcessing (fileStatuses s !! fileId) = true)
  ∧ (wasProcessing (fileStatuses s !! fileId) = true →
     toasts (effects o) =
       [if String.eqb (sd_status sd) "completed"
        then ToastSuccess "Document processed successfully! Ready to chat." "Complete"
        else ToastError (or_default (sd_error sd) "Processing failed. Please try again.")
                        "Failed"])
  ∧ (fileStatuses s !! fileId = None → toasts (effects o) = [])
  ∧ (sd_status sd = "completed" → FetchFiles ∈ effects o)
  ∧ pollIntervalsRef (next o) !! fileId = None
  ∧ (∀ h, timers (next o) !! h ≠ Some fileId).
Proof.
  intros Hreg Hterm Hok o. subst o. unfold pollStatus.
  apply Z.ltb_ge in Hok. rewrite Hok, Hterm. simpl.
  assert (∀ h, timers (stopPolling fileId s) !! h ≠ Some fileId) as Hno
    by (intros h; by apply stopPolling_no_timer).
  pose proof (stopPolling_handle_gone fileId s) as Hgone.
  apply is_terminal_cases in Hterm as [Hst|Hst]; rewrite Hst; simpl;
    destruct (wasProcessing (fileStatuses s !! fileId)) eqn:Hwas; simpl;
    repeat split; try done; try (intros; by constructor);
    try (intros E; rewrite E in Hwas; discriminate Hwas).
Qed.

Lemma terminal_toast_iff_was_processing_witness :
  let s := step (OpStart "f1" 1%positive)
             (step (OpTrack "f1" (mkFileStatus "processing" None None (Some 1000))) init) in
  let o := pollStatus "f1" (Some (mkStatusData "completed" None None)) 7000 7000 s in
  registered s
  ∧ toasts (effects o)
      = [ToastSuccess "Document processed successfully! Ready to chat." "Complete"]
  ∧ FetchFiles ∈ effects o
  ∧ pollIntervalsRef (next o) !! "f1" = None.
Proof.
  assert (registered (step (OpStart "f1" 1%positive)
             (step (OpTrack "f1" (mkFileStatus "processing" None None (Some 1000))) init)))
    as Hreg.
  { apply reachable_registered.
    apply reachable_step; [|reflexivity].
    apply reachable_step; [apply reachable_init | exact I]. }
  split; [exact Hreg|].
  assert (7000 - 1000 ≤ POLL_TIMEOUT) as Hok by (unfold POLL_TIMEOUT; lia).
  pose proof (terminal_toast_iff_was_processing _ "f1"
                (mkStatusData "completed" None None) 7000 7000 Hreg eq_refl Hok)
    as (_ & Htoast & _ & Hfetch & Hgone & _).
  split; [exact (Htoast eq_refl)|]. split; [exact (Hfetch eq_refl) | exact Hgone].
Defined.

(** C3 as stated fails once the timeout has passed: the file was
    ['processing'], the payload says ['completed'], and the only effect is
    the timeout error toast; the file list is not refetched and no success
    toast is shown. *)
Lemma completed_past_timeout_not_refetched :
  let s := step (OpStart "f1" 1%positive)
             (step (OpTrack "f1" (mkFileStatus "processing" None None (Some 1000))) init) in
  let o := pollStatus "f1" (Some (mkStatusData "completed" None None)) 200000 200000 s in
  reachable s
  ∧ wasProcessing (fileStatuses s !! "f1") = true
  ∧ effects o = [ToastError timeout_message "Timeout"]
  ∧ (FetchFiles ∉ effects o)
  ∧ status <$> fileStatuses (next o) !! "f1" = Some "failed".
Proof.
  repeat split.
  - apply reachable_step; [|reflexivity].
    apply reachable_step; [apply reachable_init | exact I].
  - simpl. intros H. apply list_elem_of_singleton in H. discriminate H.
Qed.

(** C7.  A tick whose status request throws returns the state as it is,
    with no effect at all.  And whatever the response, a tick changes the
    handle registry or the live timers only when the payload reports
    ['completed'] or ['failed'] or the timeout has passed. *)
Theorem transport_error_is_swallowed s (fileId : string)
    (response : option StatusData) (t0 t1 : Z) :
  pollStatus fileId None t0 t1 s = mkOutcome s [] None
  ∧ (let o := pollStatus fileId response t0 t1 s in
     pollIntervalsRef (next o) ≠ pollIntervalsRef s ∨ timers (next o) ≠ timers s →
     ∃ sd, response = Some sd
           ∧ (is_terminal (sd_status sd) = true
              ∨ POLL_TIMEOUT < t1 - effective_start (fileStatuses s !! fileId) t0)).
Proof.
  split; [reflexivity|].
  unfold pollStatus. destruct response as [sd|]; simpl; [|intros [H|H]; done].
  destruct (POLL_TIMEOUT <? _) eqn:Hlate.
  - intros _. exists sd. split; [done|]. right. by apply Z.ltb_lt.
  - destruct (is_terminal (sd_status sd)) eqn:Hterm; simpl.
    + intros _. exists sd. auto.
    + intros [H|H]; done.
Qed.

Lemma transport_error_is_swallowed_witness :
  let s := step (OpStart "f1" 1%positive)
             (step (OpTrack "f1" (mkFileStatus "processing" None None (Some 1000))) init) in
  pollStatus "f1" None 4000 4000 s = mkOutcome s [] None.
Proof.
  apply (transport_error_is_swallowed
           (step (OpStart "f1" 1%positive)
              (step (OpTrack "f1" (mkFileStatus "processing" None None (Some 1000))) init))
           "f1" None 4000 4000).
Defined.

End PollerTicks.

(** * Properties of the chat controller *)

Section ChatSubmit.
Import Chat.

Implicit Types (s : State) (props : Props) (files : list File).

Lemma or_default_truthy (d fallback : string) :
  d ≠ "" → or_default (Some d) fallback = d.
Proof.
  intros Hd. unfold or_default, truthy.
  destruct (String.eqb_spec d ""); [contradiction | reflexivity].
Qed.

Lemma truthy_false (q : string) : truthy q = false ↔ q = "".
Proof.
  unfold truthy. destruct (String.eqb_spec q ""); simpl; split; congruence.
Qed.

Lemma finalQuestion_empty (question_p : string) s :
  finalQuestion question_p s = "" ↔ trim question_p = "" ∧ trim (question s) = "".
Proof.
  unfold finalQuestion. destruct (truthy (trim question_p)) eqn:E.
  - split.
    + intros H. apply truthy_false in H. congruence.
    + intros [H _]. apply truthy_false in H. congruence.
  - apply truthy_false in E. tauto.
Qed.

(** C5.  When no processed document is available, or the question (the
    argument, or the input box when the argument is blank) is empty after
    trimming, [handleSubmit] shows one alert and returns: the state, and
    so the message list, is unchanged and no effect is a network call. *)
Theorem submit_rejected_without_documents_or_text
    props files (question_p : string) (created : option positive)
    (remounted : State) (now now' : string) (result : PostResult) s :
  length files = 0%nat ∨ (trim question_p = "" ∧ trim (question s) = "") →
  ∃ text,
    handleSubmit props files question_p created remounted now result now' s
    = (s, [Alert text])
    ∧ handleSubmit_begin props files question_p created now s = Aborted s [Alert text]
    ∧ messages
        (handleSubmit props files question_p created remounted now result now' s).1
      = messages s
    ∧ List.filter is_network
        (handleSubmit props files question_p created remounted now result now' s).2
      = [].
Proof.
  intros Hbad. unfold handleSubmit, handleSubmit_begin.
  destruct (length files =? 0)%nat eqn:Hlen.
  - eexists. repeat split.
  - destruct Hbad as [Hzero|Hblank].
    + rewrite Hzero in Hlen. discriminate Hlen.
    + apply finalQuestion_empty in Hblank. rewrite Hblank. simpl.
      eexists. repeat split.
Qed.

Lemma submit_rejected_without_documents_or_text_witness :
  let s := mkState "What is N7?" false [] false "Auto-detect" "Mistral" in
  ∃ text,
    handleSubmit (mkProps (Some 3%positive) true true) [] "" None (initialState false)
      "2026-01-01T00:00:00.000Z" (PostFailed None) "2026-01-01T00:00:01.000Z" s
    = (s, [Alert text]).
Proof.
  destruct (submit_rejected_without_documents_or_text
              (mkProps (Some 3%positive) true true) [] "" None (initialState false)
              "2026-01-01T00:00:00.000Z" "2026-01-01T00:00:01.000Z" (PostFailed None)
              (mkState "What is N7?" false [] false "Auto-detect" "Mistral")
              (or_introl eq_refl)) as (text & H & _).
  exists text. exact H.
Defined.

(** C10.  With no session id in the props and a creation that yields no
    id, [handleSubmit] returns with the whole state unchanged (message
    list, input text and loading flag included) and without a send
    request; when the input passes the two checks and the creation
    callback is passed, what it did is ask for a session and alert. *)
Theorem submit_aborts_when_creation_fails
    props files (question_p now now' : string) (remounted : State)
    (result : PostResult) s :
  sessionId props = None →
  let out := handleSubmit props files question_p None remounted now result now' s in
  out.1 = s
  ∧ messages out.1 = messages s
  ∧ question out.1 = question s
  ∧ isLoading out.1 = isLoading s
  ∧ (∀ target content lang mdl, PostMessage target content lang mdl ∉ out.2)
  ∧ (length files ≠ 0%nat → finalQuestion question_p s ≠ "" →
     onCreateSession props = true →
     out.2 = [CreateSession; Alert "Failed to create chat session."]).
Proof.
  intros Hnone out. subst out. unfold handleSubmit, handleSubmit_begin.
  rewrite Hnone. simpl.
  assert (∀ fx : list Effect,
            Forall (λ e, match e with PostMessage _ _ _ _ => False | _ => True end) fx →
            ∀ target content lang mdl, PostMessage target content lang mdl ∉ fx)
    as Hnopost.
  { intros fx Hall target content lang mdl Hin.
    rewrite Forall_forall in Hall. exact (Hall _ Hin). }
  destruct (length files =? 0)%nat eqn:Hlen; simpl.
  { apply Nat.eqb_eq in Hlen. repeat split; try done.
    apply Hnopost. by repeat constructor. }
  destruct (truthy (finalQuestion question_p s)) eqn:Hq; simpl.
  2:{ apply truthy_false in Hq. repeat split; try done.
      apply Hnopost. by repeat constructor. }
  destruct (onCreateSession props) eqn:Hcb; simpl.
  - repeat split; try done. apply Hnopost. by repeat constructor.
  - repeat split; try done. apply Hnopost. by repeat constructor.
Qed.

Lemma submit_aborts_when_creation_fails_witness :
  let s := mkState "What is N7?" false [] true "Auto-detect" "Mistral" in
  let f := mkFile "12" "rules.pdf" true in
  handleSubmit (mkProps None true true) [f] "" None (initialState false)
    "2026-01-01T00:00:00.000Z" (PostFailed None) "2026-01-01T00:00:01.000Z" s
  = (s, [CreateSession; Alert "Failed to create chat session."]).
Proof.
  pose proof (submit_aborts_when_creation_fails
                (mkProps None true true) [mkFile "12" "rules.pdf" true] ""
                "2026-01-01T00:00:00.000Z" "2026-01-01T00:00:01.000Z"
                (initialState false) (PostFailed None)
                (mkState "What is N7?" false [] true "Auto-detect" "Mistral")
                eq_refl) as (Hs & _ & _ & _ & _ & Hfx).
  apply injective_projections; [exact Hs|].
  apply Hfx; [discriminate | discriminate | reflexivity].
Defined.

End ChatSubmit.

Section ChatSendFailure.
Import Chat.

(** C4.  The code at the input where it departs from the claim.  The page
    has no active session and one processed document, the user submits
    "Hello", the session is created with id 9, the server has no message
    for it yet, and the send is rejected with the detail "Model
    unavailable".  The handler asks for a session and sends the question,
    but the controller on the page is the one mounted for the new session:
    its transcript is empty, with neither the question nor the error
    message.  With session 9 already selected the same submit leaves the
    question followed by the message "Model unavailable". *)
Theorem send_failure_after_session_creation_loses_the_transcript :
  let s := mkState "Hello" false [] false "Auto-detect" "Mistral" in
  let files := [mkFile "12" "rules.pdf" true] in
  let remounted :=
    loadSessionMessages (Some 9%positive) (Some []) (initialState false) in
  let created :=
    handleSubmit (mkProps None true true) files "" (Some 9%positive) remounted
      "2026-01-01T00:00:00.000Z" (PostFailed (Some "Model unavailable"))
      "2026-01-01T00:00:01.000Z" s in
  let selected :=
    handleSubmit (mkProps (Some 9%positive) true true) files "" None remounted
      "2026-01-01T00:00:00.000Z" (PostFailed (Some "Model unavailable"))
      "2026-01-01T00:00:01.000Z" s in
  created.2 = [CreateSession; PostMessage 9 "Hello" "Auto-detect" "Mistral"]
  ∧ messages created.1 = []
  ∧ messages selected.1
    = [mkMessage "Hello" true "2026-01-01T00:00:00.000Z" None;
       mkMessage "Model unavailable" false "2026-01-01T00:00:01.000Z" None].
Proof. repeat split. Qed.

End ChatSendFailure.

Section ChatHandoff.
Import Chat.

Implicit Types (h : Handoff) (e : Event).

Lemma pendingEffect_cases (loading : bool) h :
  pendingEffect loading h = h
  ∨ (loading = false ∧ hasHandledPendingRef h = false
     ∧ ∃ q, or_else (stateQuestion h) (pendingQuestion h) = Some q ∧ q ≠ ""
            ∧ pendingEffect loading h
              = mkHandoff true
                  (if truthy_opt (stateQuestion h) then None else stateQuestion h)
                  (if truthy_opt (pendingQuestion h) then None else pendingQuestion h)
                  (scheduled h ++ [(100, q)])).
Proof.
  unfold pendingEffect.
  destruct loading; [by left|].
  destruct (hasHandledPendingRef h) eqn:Hflag; [by left|].
  destruct (or_else (stateQuestion h) (pendingQuestion h)) as [q|] eqn:Hq; [|by left].
  destruct (truthy q) eqn:Ht; [|by left].
  right. repeat split. exists q. repeat split.
  intros ->. discriminate Ht.
Qed.

Lemma on_event_inv e h : handoff_inv h → handoff_inv (on_event e h).
Proof.
  intros (Hflag & Hlen & Hall). destruct e as [loading|q|q]; simpl; [|done..].
  destruct (pendingEffect_cases loading h) as [->|(_ & Hdown & q & _ & Hq & ->)];
    [done|].
  rewrite (Hflag Hdown). unfold handoff_inv. simpl.
  split; [done|]. split; [lia|].
  intros d q' Hin. apply list_elem_of_singleton in Hin. split; congruence.
Qed.

Lemma run_inv (es : list Event) h : handoff_inv h → handoff_inv (run es h).
Proof.
  revert h. induction es as [|e es IH]; intros h Hinv; [done|].
  unfold run. simpl. apply IH. by apply on_event_inv.
Qed.

(** C6.  However often the effect runs on a mounted controller, and
    whatever is written to the navigation state or to local storage in
    between, at most one [handleSubmit] call is ever handed to
    [setTimeout].  A run of the effect schedules one only when the file
    list is not loading and the flag is down; that same run raises the
    flag, drops the question from the navigation state and from local
    storage, and schedules the call with a delay of 100 ms. *)
Theorem pending_question_consumed_at_most_once
    (es : list Event) (nav stored : option string) (loading : bool) h0 :
  let h := run es (mounted nav stored) in
  (length (scheduled h) ≤ 1)%nat
  ∧ (scheduled h ≠ [] → hasHandledPendingRef h = true)
  ∧ (∀ d q, (d, q) ∈ scheduled h → d = 100 ∧ q ≠ "")
  ∧ (hasHandledPendingRef h0 = true → pendingEffect loading h0 = h0)
  ∧ (loading = true → pendingEffect loading h0 = h0)
  ∧ (scheduled (pendingEffect loading h0) ≠ scheduled h0 →
     loading = false
     ∧ hasHandledPendingRef h0 = false
     ∧ hasHandledPendingRef (pendingEffect loading h0) = true
     ∧ truthy_opt (stateQuestion (pendingEffect loading h0)) = false
     ∧ truthy_opt (pendingQuestion (pendingEffect loading h0)) = false
     ∧ ∃ q, or_else (stateQuestion h0) (pendingQuestion h0) = Some q
            ∧ scheduled (pendingEffect loading h0) = scheduled h0 ++ [(100, q)]).
Proof.
  intros h.
  assert (handoff_inv h) as (Hflag & Hlen & Hall).
  { apply run_inv. unfold handoff_inv, mounted. simpl.
    split; [done|]. split; [lia|]. intros d q Hin. by apply elem_of_nil in Hin. }
  split; [exact Hlen|]. split.
  { destruct (hasHandledPendingRef h) eqn:E; [done|]. intros Hne.
    by specialize (Hflag eq_refl). }
  split; [exact Hall|].
  split. { intros Hup. unfold pendingEffect. rewrite Hup. by destruct loading. }
  split. { by intros ->. }
  intros Hchg.
  destruct (pendingEffect_cases loading h0)
    as [Heq|(Hl & Hd & q & Hq & Hne & Heq)].
  { rewrite Heq in Hchg. done. }
  rewrite Heq. simpl.
  split; [done|]. split; [done|]. split; [done|].
  split. { by destruct (truthy_opt (stateQuestion h0)) eqn:E. }
  split. { by destruct (truthy_opt (pendingQuestion h0)) eqn:E. }
  by exists q.
Qed.

Lemma pending_question_consumed_at_most_once_witness :
  let h := run [EffectRuns true; EffectRuns false; StorageItem (Some "again");
                NavigationState (Some "and again"); EffectRuns false]
             (mounted None (Some "What is N7?")) in
  scheduled h = [(100, "What is N7?")] ∧ (length (scheduled h) ≤ 1)%nat.
Proof.
  split; [reflexivity|].
  apply (pending_question_consumed_at_most_once
           [EffectRuns true; EffectRuns false; StorageItem (Some "again");
            NavigationState (Some "and again"); EffectRuns false]
           None (Some "What is N7?") false (mounted None None)).
Defined.

End ChatHandoff.

(** * Properties of the session list *)

Section SessionRoster.
Import Sessions.

Implicit Types (s : State) (data : list Session).

Lemma or_else_falsy (a b : option string) :
  truthy_opt (or_else a b) = false ↔ truthy_opt a = false ∧ truthy_opt b = false.
Proof.
  unfold or_else. destruct (truthy_opt a) eqn:E.
  - rewrite E. split; [discriminate | intros [? _]; discriminate].
  - tauto.
Qed.

(** X23.  What [fetchSessions] does with the values its callback holds:
    the fetched roster replaces the list, and its first entry becomes
    active exactly when the [activeSessionId] the callback captured is
    empty, the roster is not, and no question is pending in the navigation
    state or in local storage; otherwise, and when the request fails, the
    active id of the state is left as it is. *)
Theorem fetchSessions_selects_by_captured_value
    (captured : option positive) data (nav stored : option string) s :
  let s' := fetchSessions captured (Some data) nav stored s in
  let idle :=
    captured = None ∧ data ≠ []
    ∧ truthy_opt nav = false ∧ truthy_opt stored = false in
  sessions s' = data
  ∧ (idle → ∃ first rest, data = first :: rest ∧ activeSessionId s' = Some (id first))
  ∧ (¬ idle → activeSessionId s' = activeSessionId s)
  ∧ activeSessionId (fetchSessions captured None nav stored s) = activeSessionId s.
Proof.
  intros s' idle. subst s' idle. unfold fetchSessions. simpl.
  split; [done|]. split; [|split; [|done]].
  - intros (Hnone & Hdata & Hnav & Hstored).
    destruct data as [|first rest]; [done|].
    exists first, rest. split; [done|].
    rewrite Hnone. simpl.
    by rewrite (proj2 (or_else_falsy nav stored) (conj Hnav Hstored)).
  - intros Hbusy.
    destruct captured as [a|] eqn:Hact; simpl; [done|].
    destruct data as [|first rest]; simpl; [done|].
    destruct (truthy_opt (or_else nav stored)) eqn:Hq; simpl; [done|].
    apply or_else_falsy in Hq. exfalso. apply Hbusy.
    split; [done|]. split; [done|]. exact Hq.
Qed.

Lemma fetchSessions_selects_by_captured_value_witness :
  let s8 := mkSession 8 "Exams" "2026-01-02" in
  let s5 := mkSession 5 "Housing" "2026-01-01" in
  activeSessionId (fetchSessions None (Some [s8; s5]) None None (mkState [] None true 0))
  = Some 8%positive
  ∧ activeSessionId
      (fetchSessions None (Some [s8; s5]) None (Some "What is N7?")
         (mkState [] None true 0))
    = None.
Proof.
  pose proof (fetchSessions_selects_by_captured_value None
                [mkSession 8 "Exams" "2026-01-02"; mkSession 5 "Housing" "2026-01-01"]
                None None (mkState [] None true 0)) as (_ & Hidle & _ & _).
  pose proof (fetchSessions_selects_by_captured_value None
                [mkSession 8 "Exams" "2026-01-02"; mkSession 5 "Housing" "2026-01-01"]
                None (Some "What is N7?") (mkState [] None true 0)) as (_ & _ & Hbusy & _).
  split.
  - destruct Hidle as (first & rest & [= <- <-] & Hact); [by repeat split|].
    exact Hact.
  - apply Hbusy. intros (_ & _ & _ & Hstored). discriminate Hstored.
Defined.

(** C8.  The code at an input where it departs from the claim.  The page
    mounts with no sessions and starts the roster request, its callback
    holding an empty [activeSessionId]; the user creates session 9 before
    the request returns with sessions 8 and 5.  Session 9 is active when
    the fetch resolves, yet the first entry of the roster, session 8,
    becomes active.  The same happens when the callback is the
    [onSessionUpdate] that a submit took before it created session 9.  A
    callback that holds the current value leaves session 9 active. *)
Theorem stale_refresh_replaces_the_active_session :
  let s8 := mkSession 8 "Exams" "2026-01-02" in
  let s5 := mkSession 5 "Housing" "2026-01-01" in
  let s9 := mkSession 9 "New Chat" "2026-01-03" in
  let mounted := mkState [] None true 0 in
  let created := (createNewSession (Some s9) mounted).1 in
  let refreshed :=
    fetchSessions (activeSessionId mounted) (Some [s8; s5]) None None created in
  let before := mkState [s8; s5] None false 0 in
  let created' := (createNewSession (Some s9) before).1 in
  let updated :=
    fetchSessions (activeSessionId before) (Some [s8; s9; s5]) None None created' in
  let current :=
    fetchSessions (activeSessionId created') (Some [s8; s9; s5]) None None created' in
  activeSessionId created = Some 9%positive
  ∧ activeSessionId refreshed = Some 8%positive
  ∧ activeSessionId created' = Some 9%positive
  ∧ activeSessionId updated = Some 8%positive
  ∧ activeSessionId current = Some 9%positive.
Proof. repeat split. Qed.



End SessionRoster.

(** * Properties of the handlers around the poller *)

Section HandlerFacts.
Import Poller Handlers.

Implicit Types (s : State) (f g : string) (h : positive).

Lemma agree_registered s : agree s → registered s.
Proof. intros Hag h f Hlive. by apply Hag. Qed.

Lemma agree_init : agree init.
Proof. intros f h. unfold init. simpl. by rewrite !lookup_empty. Qed.

Lemma agree_stopPolling f s : agree s → agree (stopPolling f s).
Proof.
  intros Hag f' h'. unfold stopPolling, clearInterval.
  destruct (pollIntervalsRef s !! f) as [h0|] eqn:Hf; simpl; [|apply Hag].
  rewrite !lookup_delete. repeat case_decide; subst; split; try done.
  - intros Hlive. apply Hag in Hlive. congruence.
  - intros Hreg. apply Hag in Hreg. apply Hag in Hf. congruence.
  - apply Hag.
  - apply Hag.
Qed.

Lemma agree_startPolling f h s :
  agree s → timers (stopPolling f s) !! h = None → agree (startPolling f h s).
Proof.
  intros Hag Hfresh f' h'. unfold startPolling. simpl.
  pose proof (agree_stopPolling f s Hag) as Hag1.
  pose proof (stopPolling_handle_gone f s) as Hgone.
  rewrite !lookup_insert. repeat case_decide; subst; split; try done.
  - congruence.
  - intros Hlive. apply Hag1 in Hlive. congruence.
  - intros Hreg. apply Hag1 in Hreg. congruence.
  - congruence.
  - apply Hag1.
  - apply Hag1.
Qed.

Lemma agree_pollStatus f r t0 t1 s : agree s → agree (next (pollStatus f r t0 t1 s)).
Proof.
  intros Hag f' h'.
  destruct (pollStatus_handles f r t0 t1 s) as [[-> ->]|[-> ->]].
  - apply Hag.
  - by apply agree_stopPolling.
Qed.

Lemma stopPolling_track f g e s :
  timers (stopPolling f (track g e s)) = timers (stopPolling f s)
  ∧ pollIntervalsRef (stopPolling f (track g e s)) = pollIntervalsRef (stopPolling f s).
Proof. unfold stopPolling, track. simpl. by destruct (pollIntervalsRef s !! f). Qed.

Lemma reachable_track f e s : reachable s → reachable (track f e s).
Proof. intros Hr. exact (reachable_step (OpTrack f e) s Hr I). Qed.

Lemma reachable_startPolling f h s :
  reachable s → timers (stopPolling f s) !! h = None → reachable (startPolling f h s).
Proof. intros Hr Hfresh. exact (reachable_step (OpStart f h) s Hr Hfresh). Qed.

Lemma reachable_pollStatus f r t0 t1 s :
  reachable s → reachable (next (pollStatus f r t0 t1 s)).
Proof. intros Hr. exact (reachable_step (OpTick f r t0 t1) s Hr I). Qed.

Lemma checkOne_consistent f (p : Probe) s :
  reachable s → agree s → timers (stopPolling f s) !! probe_handle p = None →
  reachable (checkOne f p s) ∧ agree (checkOne f p s).
Proof.
  intros Hr Hag Hfresh. unfold checkOne.
  destruct (probe_response p) as [sd|]; [|done].
  destruct (String.eqb (sd_status sd) "processing"); [|done].
  split.
  - apply reachable_startPolling; [by apply reachable_track|].
    by rewrite (proj1 (stopPolling_track _ _ _ _)).
  - apply agree_startPolling; [exact Hag|].
    by rewrite (proj1 (stopPolling_track _ _ _ _)).
Qed.

Lemma sweep_consistent (env : nat → Probe) (ids : list string) i s :
  reachable s → agree s → sweep_fresh env i ids s →
  reachable (sweep env i ids s) ∧ agree (sweep env i ids s).
Proof.
  revert i s. induction ids as [|f rest IH]; intros i s Hr Hag Hfresh; [done|].
  destruct Hfresh as [Hf Hrest]. simpl.
  destruct (checkOne_consistent f (env i) s Hr Hag Hf) as [Hr' Hag'].
  by apply IH.
Qed.

Lemma untouched_refl g s : untouched g s s.
Proof. by repeat split. Qed.

Lemma untouched_trans g s1 s2 s3 :
  untouched g s1 s2 → untouched g s2 s3 → untouched g s1 s3.
Proof.
  intros (Ha & Hb & Hc) (Ha' & Hb' & Hc'). repeat split; try congruence.
  - intros H. by apply Hc, Hc'.
  - intros H. by apply Hc', Hc.
Qed.

Lemma untouched_track f g e s : f ≠ g → untouched g s (track f e s).
Proof.
  intros Hne. unfold untouched, track. simpl.
  by rewrite lookup_insert_ne.
Qed.

Lemma untouched_stopPolling f g s : agree s → f ≠ g → untouched g s (stopPolling f s).
Proof.
  intros Hag Hne. split; [by rewrite stopPolling_fileStatuses|].
  split; [by apply stopPolling_other_handle|].
  intros h. split; [apply stopPolling_timers_sub|].
  intros Hlive. unfold stopPolling, clearInterval.
  destruct (pollIntervalsRef s !! f) as [h0|] eqn:Hf; simpl; [|done].
  rewrite lookup_delete_ne; [done|].
  intros ->. apply Hag in Hf. congruence.
Qed.

Lemma untouched_startPolling f g h s :
  agree s → f ≠ g → timers (stopPolling f s) !! h = None →
  untouched g s (startPolling f h s).
Proof.
  intros Hag Hne Hfresh.
  destruct (untouched_stopPolling f g s Hag Hne) as (Ha & Hb & Hc).
  unfold untouched, startPolling. simpl.
  split; [done|]. split; [by rewrite lookup_insert_ne|].
  intros h'. rewrite lookup_insert. case_decide as Hh.
  - subst h'. split; [congruence|].
    intros Hlive. apply Hc in Hlive. congruence.
  - apply Hc.
Qed.

Lemma untouched_pollStatus f g r t0 t1 s :
  agree s → f ≠ g → untouched g s (next (pollStatus f r t0 t1 s)).
Proof.
  intros Hag Hne.
  pose proof (untouched_stopPolling f g s Hag Hne) as (Ha & Hb & Hc).
  unfold pollStatus. destruct r as [sd|]; [|apply untouched_refl].
  destruct (POLL_TIMEOUT <? _); unfold untouched; simpl.
  - rewrite lookup_insert_ne by done. by rewrite stopPolling_fileStatuses.
  - destruct (is_terminal (sd_status sd)); rewrite lookup_insert_ne by done.
    + by rewrite stopPolling_fileStatuses.
    + done.
Qed.

Lemma untouched_checkOne f g (p : Probe) s :
  agree s → f ≠ g → timers (stopPolling f s) !! probe_handle p = None →
  untouched g s (checkOne f p s).
Proof.
  intros Hag Hne Hfresh. unfold checkOne.
  destruct (probe_response p) as [sd|]; [|apply untouched_refl].
  destruct (String.eqb (sd_status sd) "processing"); [|apply untouched_refl].
  eapply untouched_trans; [by apply (untouched_track f g)|].
  apply untouched_startPolling; [done|done|].
  by rewrite (proj1 (stopPolling_track _ _ _ _)).
Qed.

Lemma untouched_sweep (env : nat → Probe) (ids : list string) g i s :
  reachable s → agree s → sweep_fresh env i ids s → g ∉ ids →
  untouched g s (sweep env i ids s).
Proof.
  revert i s. induction ids as [|f rest IH]; intros i s Hr Hag Hfresh Hnotin;
    [apply untouched_refl|].
  destruct Hfresh as [Hf Hrest]. simpl.
  apply not_elem_of_cons in Hnotin as [Hne Hnotin].
  destruct (checkOne_consistent f (env i) s Hr Hag Hf) as [Hr' Hag'].
  eapply untouched_trans; [by apply untouched_checkOne|].
  by apply IH.
Qed.

Lemma elem_of_unprocessedIds (data : list (string * list Chat.File)) (x : string) :
  x ∈ unprocessedIds data ↔
  ∃ group file, group ∈ data ∧ file ∈ group.2
                ∧ Chat.processed file = false ∧ Chat.file_id file = x.
Proof.
  unfold unprocessedIds. rewrite list_elem_of_In, in_flat_map. split.
  - intros (group & Hg & Hx). apply in_map_iff in Hx as (file & Hid & Hfile).
    apply filter_In in Hfile as [Hfile Hproc].
    exists group, file. rewrite !list_elem_of_In.
    repeat split; try done. by destruct (Chat.processed file).
  - intros (group & file & Hg & Hfile & Hproc & Hid).
    exists group. rewrite <- list_elem_of_In. split; [done|].
    apply in_map_iff. exists file. split; [done|].
    apply filter_In. rewrite <- list_elem_of_In. split; [done|]. by rewrite Hproc.
Qed.

End HandlerFacts.

Section HandlerProperties.
Import Poller Handlers.

Implicit Types (s : State) (f g : string) (h : positive).

(** X1.  While the component is mounted the registry and the timer table
    stay in step: starting from a reachable state in which they agree, the
    process handler, the initial sweep and the delete handler each end in a
    reachable state in which a handle is registered for a file exactly
    when it is a live timer polling that file.  The process handler of the
    chat does to the poller what the dashboard's does, and leaves the
    [processing] flag of the file lowered. *)
Theorem handlers_keep_registry_and_timers_in_step
    (fileId : string) (clicked : Z) (answer : ProcessResult) (h : positive)
    (response : option StatusData) (t0 t1 : Z)
    (filesData : option (list (string * list Chat.File))) (filesIsLoading : bool)
    (env : nat → Probe) (gone : DeleteResult) (flags : gmap string bool) s :
  reachable s → agree s →
  timers (stopPolling fileId s) !! h = None →
  (∀ data, filesData = Some data → sweep_fresh env 0 (unprocessedIds data) s) →
  let processed := (handleFileProcess fileId clicked answer h response t0 t1 s).1 in
  let swept := checkInitialStatuses filesData filesIsLoading env s in
  let deleted := (handleFileDelete fileId gone s).1 in
  (reachable processed ∧ agree processed)
  ∧ (reachable swept ∧ agree swept)
  ∧ (reachable deleted ∧ agree deleted)
  ∧ (handleProcessFile fileId clicked answer h response t0 t1 s flags).1.1 = processed
  ∧ (handleProcessFile fileId clicked answer h response t0 t1 s flags).1.2 !! fileId
    = Some false.
Proof.
  intros Hr Hag Hfresh Hsweep. simpl. split; [|split; [|split; [|split]]];
    [| | |unfold handleProcessFile;
          by destruct (handleFileProcess fileId clicked answer h response t0 t1 s)
     |unfold handleProcessFile;
      destruct (handleFileProcess fileId clicked answer h response t0 t1 s);
      simpl; apply lookup_insert_eq].
  - unfold handleFileProcess.
    set (s1 := track fileId _ s).
    assert (reachable s1 ∧ agree s1) as [Hr1 Hag1]
      by (split; [by apply reachable_track | exact Hag]).
    destruct answer as [result|detail]; simpl.
    + destruct (String.eqb (sd_status result) "completed"); simpl.
      { split; [by apply reachable_track | exact Hag]. }
      destruct (starts_polling (sd_status result)); simpl; [|done].
      assert (timers (stopPolling fileId s1) !! h = None) as Hfresh1
        by (subst s1; by rewrite (proj1 (stopPolling_track _ _ _ _))).
      split.
      * apply reachable_pollStatus, reachable_startPolling;
          [by apply reachable_track|].
        by rewrite (proj1 (stopPolling_track _ _ _ _)).
      * apply agree_pollStatus, agree_startPolling; [exact Hag|].
        by rewrite (proj1 (stopPolling_track _ _ _ _)).
    + split; [by apply reachable_track | exact Hag].
  - unfold checkInitialStatuses. destruct filesData as [data|]; [|done].
    destruct filesIsLoading; [done|].
    apply sweep_consistent; [done|done|]. by apply Hsweep.
  - unfold handleFileDelete. destruct gone as [|detail]; simpl; [|done].
    split.
    + exact (reachable_step (OpUntrack fileId) _
               (reachable_step (OpStop fileId) s Hr I) I).
    + by apply agree_stopPolling.
Qed.

Lemma handlers_keep_registry_and_timers_in_step_witness :
  let data := [("pdf", [Chat.mkFile "f1" "a.pdf" false; Chat.mkFile "f2" "b.pdf" true])] in
  let env := λ i : nat,
    mkProbe (Some (mkStatusData "processing" None None)) 5000 (Pos.of_nat (10 + i)) in
  agree (checkInitialStatuses (Some data) false env init)
  ∧ pollIntervalsRef (checkInitialStatuses (Some data) false env init) !! "f1"
    = Some 10%positive.
Proof.
  split; [|reflexivity].
  refine (proj2 (proj1 (proj2
    (handlers_keep_registry_and_timers_in_step "f1" 1000 (ProcessFailed None) 1%positive
       None 0 0
       (Some [("pdf", [Chat.mkFile "f1" "a.pdf" false; Chat.mkFile "f2" "b.pdf" true])])
       false
       (λ i : nat, mkProbe (Some (mkStatusData "processing" None None)) 5000
                     (Pos.of_nat (10 + i)))
       Deleted ∅ init reachable_init agree_init eq_refl _)))).
  intros data [= <-]. simpl. split; [reflexivity | exact I].
Defined.

(** X2.  What is done for one file leaves every other file alone: stopping,
    starting or polling [f] changes neither the tracked entry of another
    file [g], nor its registered handle, nor the set of live timers
    polling it. *)
Theorem poller_actions_leave_other_files
    f g h (response : option StatusData) (t0 t1 : Z) s :
  agree s → f ≠ g → timers (stopPolling f s) !! h = None →
  untouched g s (stopPolling f s)
  ∧ untouched g s (startPolling f h s)
  ∧ untouched g s (next (pollStatus f response t0 t1 s)).
Proof.
  intros Hag Hne Hfresh. split; [|split].
  - by apply untouched_stopPolling.
  - by apply untouched_startPolling.
  - by apply untouched_pollStatus.
Qed.

Lemma poller_actions_leave_other_files_witness :
  let s := startPolling "g" 4%positive init in
  untouched "g" s
    (next (pollStatus "f" (Some (mkStatusData "failed" None None)) 9000 9000
             (startPolling "f" 5%positive s))).
Proof.
  assert (agree (startPolling "g" 4%positive init)) as Hag
    by (apply agree_startPolling; [apply agree_init | reflexivity]).
  assert (agree (startPolling "f" 5%positive (startPolling "g" 4%positive init))) as Hag'
    by (apply agree_startPolling; [exact Hag | reflexivity]).
  eapply untouched_trans.
  - refine (proj1 (proj2 (poller_actions_leave_other_files "f" "g" 5%positive None 0 0
                            _ Hag _ eq_refl))). discriminate.
  - refine (proj2 (proj2 (poller_actions_leave_other_files "f" "g" 6%positive
                            (Some (mkStatusData "failed" None None)) 9000 9000
                            _ Hag' _ eq_refl))). discriminate.
Defined.

(** X3.  A poll tick never moves the start time and never starts a timer.
    After a tick that got a payload the tracked start time is the one the
    timeout test used, so the next tick measures from the same instant;
    and the registry and the timer table after any tick are contained in
    those before it. *)
Theorem tick_keeps_start_time_and_adds_no_timer
    f (sd : StatusData) (response : option StatusData) (t0 t1 t0' : Z) s :
  let start := effective_start (fileStatuses s !! f) t0 in
  let o := pollStatus f (Some sd) t0 t1 s in
  startTime <$> fileStatuses (next o) !! f = Some (Some start)
  ∧ (start ≠ 0 → effective_start (fileStatuses (next o) !! f) t0' = start)
  ∧ (∀ t, fileStatuses s !! f ≫= startTime = Some t → t ≠ 0 → start = t)
  ∧ pollIntervalsRef (next (pollStatus f response t0 t1 s)) ⊆ pollIntervalsRef s
  ∧ timers (next (pollStatus f response t0 t1 s)) ⊆ timers s.
Proof.
  intros start o.
  assert (fileStatuses (next o) !! f ≫= startTime = Some start) as Hst.
  { subst o. unfold pollStatus. fold start.
    destruct (POLL_TIMEOUT <? t1 - start); simpl; by rewrite lookup_insert_eq. }
  split.
  { destruct (fileStatuses (next o) !! f) as [e|]; simpl in *; congruence. }
  split.
  { intros Hnz. unfold effective_start at 1. rewrite Hst.
    destruct (Z.eqb_spec start 0); [contradiction | reflexivity]. }
  split.
  { intros t Ht Hnz. subst start. unfold effective_start. rewrite Ht.
    destruct (Z.eqb_spec t 0); [contradiction | reflexivity]. }
  assert (∀ s', pollIntervalsRef s' = pollIntervalsRef (stopPolling f s) →
                pollIntervalsRef s' ⊆ pollIntervalsRef s) as Hreg.
  { intros s' ->. unfold stopPolling.
    destruct (pollIntervalsRef s !! f); simpl; [apply delete_subseteq | done]. }
  assert (∀ s', timers s' = timers (stopPolling f s) → timers s' ⊆ timers s) as Htim.
  { intros s' ->. unfold stopPolling, clearInterval.
    destruct (pollIntervalsRef s !! f); simpl; [apply delete_subseteq | done]. }
  destruct (pollStatus_handles f response t0 t1 s) as [[Ha Hb]|[Ha Hb]].
  - by rewrite Ha, Hb.
  - split; [by apply Hreg | by apply Htim].
Qed.

Lemma tick_keeps_start_time_and_adds_no_timer_witness :
  let s := track "f1" (mkFileStatus "processing" None None (Some 1000)) init in
  let o := pollStatus "f1" (Some (mkStatusData "pending" None None)) 4000 4000 s in
  effective_start (fileStatuses (next o) !! "f1") 7000 = 1000.
Proof.
  refine (proj1 (proj2
    (tick_keeps_start_time_and_adds_no_timer "f1" (mkStatusData "pending" None None)
       None 4000 4000 7000
       (track "f1" (mkFileStatus "processing" None None (Some 1000)) init))) _).
  discriminate.
Defined.

End HandlerProperties.

Section ProcessAndSweep.
Import Poller Handlers.

Implicit Types (s : State) (f g : string) (h : positive).

Lemma starts_polling_not_completed (st : string) :
  starts_polling st = true → String.eqb st "completed" = false.
Proof.
  unfold starts_polling. intros H.
  apply orb_prop in H as [H|H]; [apply orb_prop in H as [H|H]|];
    apply String.eqb_eq in H; by subst.
Qed.

Lemma agree_no_handle_no_timer f s :
  agree s → pollIntervalsRef s !! f = None → ∀ h, timers s !! h ≠ Some f.
Proof. intros Hag Hnone h Hlive. apply Hag in Hlive. congruence. Qed.

(** X4.  When the process endpoint answers with a status that is neither
    ['completed'] nor one of ['processing'], ['started'], ['pending'] (for
    one, ['failed']), the handler does nothing after its first update: the
    file stays tracked as ['processing'] with the starting message, the
    registry and the timers are as before, so a file that was not polled is
    not polled now, the info toast is the only notice, and the dashboard
    row of the file offers no process button. *)
Theorem process_unrecognised_status_stalls
    (fileId : string) (clicked : Z) (result : StatusData) (h : positive)
    (response : option StatusData) (t0 t1 : Z) (file : Dashboard.FileEntry) s :
  agree s →
  pollIntervalsRef s !! fileId = None →
  String.eqb (sd_status result) "completed" = false →
  starts_polling (sd_status result) = false →
  Dashboard.id file = fileId →
  let out := handleFileProcess fileId clicked (ProcessOk result) h response t0 t1 s in
  fileStatuses out.1 !! fileId
    = Some (mkFileStatus "processing" (Some "Starting processing...") None (Some clicked))
  ∧ pollIntervalsRef out.1 = pollIntervalsRef s
  ∧ timers out.1 = timers s
  ∧ (∀ h', timers out.1 !! h' ≠ Some fileId)
  ∧ out.2 = [ToastInfo "Processing started. This may take a few moments..." "Processing"]
  ∧ Dashboard.showsProcessButton (fileStatuses out.1) file = false.
Proof.
  intros Hag Hnone Hnc Hns Hid out. subst out. unfold handleFileProcess.
  rewrite Hnc, Hns. simpl.
  split; [apply lookup_insert_eq|]. split; [done|]. split; [done|].
  split; [by apply agree_no_handle_no_timer|]. split; [done|].
  unfold Dashboard.showsProcessButton, Dashboard.isProcessing,
    Dashboard.getFileDisplayStatus.
  rewrite Hid, lookup_insert_eq. simpl. apply andb_false_r.
Qed.

Lemma process_unrecognised_status_stalls_witness :
  let out := handleFileProcess "f1" 1000 (ProcessOk (mkStatusData "failed" None None))
               1%positive None 0 0 init in
  status <$> fileStatuses out.1 !! "f1" = Some "processing"
  ∧ timers out.1 = ∅.
Proof.
  destruct (process_unrecognised_status_stalls "f1" 1000
              (mkStatusData "failed" None None) 1%positive None 0 0
              (Dashboard.mkFileEntry "f1" "a.pdf" false 0) init
              agree_init eq_refl eq_refl eq_refl eq_refl)
    as (Hentry & _ & Htimers & _).
  split; [by rewrite Hentry | exact Htimers].
Defined.

(** X5.  When the process endpoint answers ['processing'], ['started'] or
    ['pending'], the file is tracked as ['processing'] from the time of the
    click and polled at once.  If that first status request throws, the new
    handle is registered and is the only live timer for the file.  If it
    reports ['completed'] within the timeout, the success toast is shown
    (the file counts as previously processing), the file list is refetched
    and no handle or timer is left. *)
Theorem process_started_polls_from_the_click
    (fileId : string) (clicked : Z) (result sd : StatusData) (h : positive)
    (t0 t1 : Z) s :
  agree s →
  timers (stopPolling fileId s) !! h = None →
  starts_polling (sd_status result) = true →
  clicked ≠ 0 →
  let waiting := handleFileProcess fileId clicked (ProcessOk result) h None t0 t1 s in
  let answered :=
    handleFileProcess fileId clicked (ProcessOk result) h (Some sd) t0 t1 s in
  fileStatuses waiting.1 !! fileId
    = Some (mkFileStatus "processing"
              (Some (or_default (sd_message result) "Processing document..."))
              (sd_error result) (Some clicked))
  ∧ pollIntervalsRef waiting.1 !! fileId = Some h
  ∧ (∀ h', timers waiting.1 !! h' = Some fileId ↔ h' = h)
  ∧ (sd_status sd = "completed" → t1 - clicked ≤ 120000 →
     answered.2
       = [ToastInfo "Processing started. This may take a few moments..." "Processing";
          Did FetchFiles;
          Did (ToastSuccess "Document processed successfully! Ready to chat." "Complete")]
     ∧ fileStatuses answered.1 !! fileId
       = Some (mkFileStatus "completed" (sd_message sd) (sd_error sd) (Some clicked))
     ∧ pollIntervalsRef answered.1 !! fileId = None
     ∧ (∀ h', timers answered.1 !! h' ≠ Some fileId)).
Proof.
  intros Hag Hfresh Hstart Hnz waiting answered. subst waiting answered.
  unfold handleFileProcess.
  rewrite (starts_polling_not_completed _ Hstart), Hstart.
  set (s2 := track fileId _ (track fileId _ s)).
  assert (agree s2) as Hag2 by exact Hag.
  assert (fileStatuses s2 !! fileId
          = Some (mkFileStatus "processing"
                    (Some (or_default (sd_message result) "Processing document..."))
                    (sd_error result) (Some clicked))) as Hentry.
  { subst s2. unfold track. simpl. by rewrite !lookup_insert_eq. }
  assert (timers (stopPolling fileId s2) !! h = None) as Hfresh2.
  { subst s2. by rewrite !(proj1 (stopPolling_track _ _ _ _)). }
  pose proof (agree_startPolling fileId h s2 Hag2 Hfresh2) as Hag3.
  assert (pollIntervalsRef (startPolling fileId h s2) !! fileId = Some h) as Hreg
    by (unfold startPolling; simpl; apply lookup_insert_eq).
  split; [|split; [|split]].
  - simpl. unfold startPolling. simpl. by rewrite stopPolling_fileStatuses.
  - exact Hreg.
  - simpl. intros h'. split.
    + intros Hlive. apply Hag3 in Hlive. congruence.
    + intros ->. by apply Hag3.
  - intros Hdone Hok. cbn [fst snd].
    assert (fileStatuses (startPolling fileId h s2) !! fileId
            = fileStatuses s2 !! fileId) as Hsame
      by (unfold startPolling; simpl; by rewrite stopPolling_fileStatuses).
    set (s3 := startPolling fileId h s2) in *. clearbody s3.
    unfold pollStatus. rewrite Hsame, Hentry. unfold effective_start. simpl.
    destruct (Z.eqb_spec clicked 0) as [|_]; [contradiction|].
    assert ((POLL_TIMEOUT <? t1 - clicked) = false) as ->
      by (apply Z.ltb_ge; unfold POLL_TIMEOUT; lia).
    rewrite Hdone. simpl. rewrite lookup_insert_eq.
    split; [done|]. split; [done|].
    split; [apply stopPolling_handle_gone|].
    intros h'. apply stopPolling_no_timer. by apply agree_registered.
Qed.

Lemma process_started_polls_from_the_click_witness :
  let out := handleFileProcess "f1" 1000 (ProcessOk (mkStatusData "started" None None))
               3%positive None 0 0 init in
  pollIntervalsRef out.1 !! "f1" = Some 3%positive.
Proof.
  refine (proj1 (proj2
    (process_started_polls_from_the_click "f1" 1000 (mkStatusData "started" None None)
       (mkStatusData "completed" None None) 3%positive 0 0 init
       agree_init eq_refl eq_refl _))).
  discriminate.
Defined.

(** X6.  The initial sweep leaves alone every file that is not listed as
    unprocessed: for a file id carried by no unprocessed entry of the file
    list, the tracked entry, the handle and the timers are after the sweep
    what they were before.  Before the list has arrived, or while it is
    loading, the sweep does nothing at all. *)
Theorem sweep_leaves_processed_files_alone
    (data : list (string * list Chat.File)) (env : nat → Probe) g s :
  reachable s → agree s →
  sweep_fresh env 0 (unprocessedIds data) s →
  (∀ group file, group ∈ data → file ∈ group.2 → Chat.file_id file = g →
                 Chat.processed file = true) →
  untouched g s (checkInitialStatuses (Some data) false env s)
  ∧ checkInitialStatuses None false env s = s
  ∧ checkInitialStatuses (Some data) true env s = s.
Proof.
  intros Hr Hag Hfresh Hproc. split; [|done].
  unfold checkInitialStatuses. apply untouched_sweep; try done.
  intros Hin. apply elem_of_unprocessedIds in Hin
    as (group & file & Hg & Hfile & Hun & Hid).
  specialize (Hproc group file Hg Hfile Hid). congruence.
Qed.

Lemma sweep_leaves_processed_files_alone_witness :
  let data := [("pdf", [Chat.mkFile "f1" "a.pdf" false; Chat.mkFile "f2" "b.pdf" true])] in
  let env := λ i : nat,
    mkProbe (Some (mkStatusData "processing" None None)) 5000 (Pos.of_nat (10 + i)) in
  untouched "f2" init (checkInitialStatuses (Some data) false env init).
Proof.
  refine (proj1
    (sweep_leaves_processed_files_alone
       [("pdf", [Chat.mkFile "f1" "a.pdf" false; Chat.mkFile "f2" "b.pdf" true])]
       (λ i : nat, mkProbe (Some (mkStatusData "processing" None None)) 5000
                     (Pos.of_nat (10 + i)))
       "f2" init reachable_init agree_init _ _)).
  - simpl. split; [reflexivity | exact I].
  - intros group file Hg Hfile Hid.
    apply list_elem_of_singleton in Hg. subst group. simpl in Hfile.
    apply elem_of_cons in Hfile as [->|Hfile]; [discriminate Hid|].
    apply list_elem_of_singleton in Hfile. by subst file.
Defined.

(** X7.  A turn of the sweep whose status request reports ['processing']
    tracks the file with the time of the sweep as its start time, whatever
    start time was tracked before, so the timeout is counted afresh, and
    leaves the new handle as the only live timer for the file.  A turn
    whose request throws, or reports any other status, changes nothing. *)
Theorem sweep_restarts_the_clock_of_a_processing_file
    f (p : Probe) (sd : StatusData) (t0 : Z) s :
  agree s →
  timers (stopPolling f s) !! probe_handle p = None →
  (probe_response p = Some sd → sd_status sd = "processing" →
   fileStatuses (checkOne f p s) !! f
     = Some (mkFileStatus "processing" (sd_message sd) (sd_error sd) (Some (probe_now p)))
   ∧ (probe_now p ≠ 0 →
      effective_start (fileStatuses (checkOne f p s) !! f) t0 = probe_now p)
   ∧ pollIntervalsRef (checkOne f p s) !! f = Some (probe_handle p)
   ∧ (∀ h', timers (checkOne f p s) !! h' = Some f ↔ h' = probe_handle p))
  ∧ (probe_response p = None → checkOne f p s = s)
  ∧ (probe_response p = Some sd → sd_status sd ≠ "processing" → checkOne f p s = s).
Proof.
  intros Hag Hfresh. split; [|split].
  - intros Hresp Hst. unfold checkOne. rewrite Hresp.
    rewrite (proj2 (String.eqb_eq _ _) Hst), Hst.
    set (s1 := track f _ s).
    assert (agree (startPolling f (probe_handle p) s1)) as Hag1.
    { apply agree_startPolling; [exact Hag|].
      subst s1. by rewrite (proj1 (stopPolling_track _ _ _ _)). }
    assert (fileStatuses (startPolling f (probe_handle p) s1) !! f
            = Some (mkFileStatus "processing" (sd_message sd) (sd_error sd)
                      (Some (probe_now p)))) as Hentry.
    { unfold startPolling. simpl. rewrite stopPolling_fileStatuses.
      subst s1. unfold track. simpl. apply lookup_insert_eq. }
    assert (pollIntervalsRef (startPolling f (probe_handle p) s1) !! f
            = Some (probe_handle p)) as Hreg
      by (unfold startPolling; simpl; apply lookup_insert_eq).
    split; [exact Hentry|]. split; [|split; [exact Hreg|]].
    + intros Hnz. rewrite Hentry. unfold effective_start. simpl.
      destruct (Z.eqb_spec (probe_now p) 0); [contradiction | reflexivity].
    + intros h'. split.
      * intros Hlive. apply Hag1 in Hlive. congruence.
      * intros ->. by apply Hag1.
  - intros Hresp. unfold checkOne. by rewrite Hresp.
  - intros Hresp Hst. unfold checkOne. rewrite Hresp.
    destruct (String.eqb_spec (sd_status sd) "processing"); [contradiction | done].
Qed.

Lemma sweep_restarts_the_clock_of_a_processing_file_witness :
  let s := track "f1" (mkFileStatus "processing" None None (Some 1000)) init in
  let p := mkProbe (Some (mkStatusData "processing" None None)) 90000 2%positive in
  effective_start (fileStatuses (checkOne "f1" p s) !! "f1") 95000 = 90000.
Proof.
  refine (proj1 (proj2 (proj1
    (sweep_restarts_the_clock_of_a_processing_file "f1"
       (mkProbe (Some (mkStatusData "processing" None None)) 90000 2%positive)
       (mkStatusData "processing" None None) 95000
       (track "f1" (mkFileStatus "processing" None None (Some 1000)) init)
       agree_init eq_refl) eq_refl eq_refl)) _).
  discriminate.
Defined.

(** X8.  After a successful delete nothing is kept of the file: no tracked
    entry, no handle, no live timer; every other file is as before.  A
    failed delete leaves the poller's state as it is and shows the error
    toast with the rejection's detail or the generic text. *)
Theorem delete_forgets_the_file_only
    f g (detail : option string) s :
  agree s →
  let out := handleFileDelete f Deleted s in
  fileStatuses out.1 !! f = None
  ∧ pollIntervalsRef out.1 !! f = None
  ∧ (∀ h, timers out.1 !! h ≠ Some f)
  ∧ (g ≠ f → untouched g s out.1)
  ∧ handleFileDelete f (DeleteFailed detail) s
    = (s, [Did (ToastError (or_default detail "Failed to delete file. Please try again.")
                  "Delete Failed")]).
Proof.
  intros Hag out. subst out. unfold handleFileDelete. simpl.
  split; [apply lookup_delete_eq|].
  split; [apply stopPolling_handle_gone|].
  split; [intros h; apply stopPolling_no_timer; by apply agree_registered|].
  split; [|done].
  intros Hne.
  destruct (untouched_stopPolling f g s Hag (not_eq_sym Hne)) as (Ha & Hb & Hc).
  unfold untouched. simpl. by rewrite lookup_delete_ne.
Qed.

Lemma delete_forgets_the_file_only_witness :
  let s := startPolling "f1" 4%positive
             (track "f1" (mkFileStatus "processing" None None (Some 1000)) init) in
  let out := handleFileDelete "f1" Deleted s in
  fileStatuses out.1 !! "f1" = None ∧ pollIntervalsRef out.1 !! "f1" = None.
Proof.
  assert (agree (startPolling "f1" 4%positive
                   (track "f1" (mkFileStatus "processing" None None (Some 1000)) init)))
    as Hag by (apply agree_startPolling; [apply agree_init | reflexivity]).
  destruct (delete_forgets_the_file_only "f1" "f2" None _ Hag) as (Ha & Hb & _).
  by split.
Defined.

End ProcessAndSweep.

(** * Properties of the dashboard's file list *)

Section SortBy.
Import Dashboard.

Context {A : Type} (cmp : A → A → Z).

Hypothesis cmp_total : ∀ a b, cmp a b ≤ 0 ∨ cmp b a ≤ 0.
Hypothesis cmp_trans : ∀ a b c, cmp a b ≤ 0 → cmp b c ≤ 0 → cmp a c ≤ 0.

Lemma insert_by_Permutation (x : A) (l : list A) : insert_by cmp x l ≡ₚ x :: l.
Proof.
  induction l as [|y l IH]; simpl; [done|].
  destruct (cmp x y <=? 0); [done|].
  rewrite IH. apply Permutation_swap.
Qed.

Lemma sort_by_Permutation (l : list A) : sort_by cmp l ≡ₚ l.
Proof.
  induction l as [|x l IH]; simpl; [done|].
  unfold sort_by in *. simpl. by rewrite insert_by_Permutation, IH.
Qed.

Lemma insert_by_sorted (x : A) (l : list A) :
  StronglySorted (λ a b, cmp a b ≤ 0) l →
  StronglySorted (λ a b, cmp a b ≤ 0) (insert_by cmp x l).
Proof.
  induction l as [|y l IH]; simpl; intros Hs.
  - by repeat constructor.
  - apply StronglySorted_cons in Hs as [Hall Hs].
    destruct (Z.leb_spec (cmp x y) 0) as [Hle|Hgt].
    + apply StronglySorted_cons. split; [|by apply StronglySorted_cons].
      constructor; [done|].
      eapply Forall_impl; [exact Hall|]. intros z Hz. by eapply cmp_trans.
    + apply StronglySorted_cons. split; [|by apply IH].
      rewrite insert_by_Permutation. constructor; [|done].
      destruct (cmp_total x y); [lia | done].
Qed.

Lemma sort_by_sorted (l : list A) :
  StronglySorted (λ a b, cmp a b ≤ 0) (sort_by cmp l).
Proof.
  induction l as [|x l IH]; [constructor|].
  unfold sort_by in *. simpl. by apply insert_by_sorted.
Qed.

End SortBy.

Section SortedLookup.

Context {A : Type} (R : A → A → Prop).

Lemma StronglySorted_lookup (l : list A) (i j : nat) (a b : A) :
  StronglySorted R l → (i < j)%nat → l !! i = Some a → l !! j = Some b → R a b.
Proof.
  revert i j. induction l as [|x l IH]; intros i j Hs Hij Hi Hj; [done|].
  apply StronglySorted_cons in Hs as [Hall Hs].
  destruct j as [|j]; [lia|]. destruct i as [|i]; simpl in *.
  - injection Hi as ->. rewrite Forall_forall in Hall.
    apply Hall. by eapply list_elem_of_lookup_2.
  - apply (IH i j); [done|lia|done|done].
Qed.

End SortedLookup.

Section DashboardList.
Import Poller Dashboard.

Implicit Types (fs : gmap string FileStatus) (a b c : FileEntry).

Lemma notAfter_spec fs a b :
  notAfter fs a b ↔
  (countsAsProcessed fs a = countsAsProcessed fs b ∧ upload_date b ≤ upload_date a)
  ∨ (countsAsProcessed fs a = false ∧ countsAsProcessed fs b = true).
Proof.
  unfold notAfter, compareFiles.
  destruct (countsAsProcessed fs a), (countsAsProcessed fs b); simpl;
    split; intros H; try lia; try (left; split; [done|lia]);
    try (by right); destruct H as [[? ?]|[? ?]]; try lia; done.
Qed.

Lemma compareFiles_total fs a b :
  compareFiles fs a b ≤ 0 ∨ compareFiles fs b a ≤ 0.
Proof.
  unfold compareFiles.
  destruct (countsAsProcessed fs a), (countsAsProcessed fs b); simpl; lia.
Qed.

Lemma compareFiles_trans fs a b c :
  compareFiles fs a b ≤ 0 → compareFiles fs b c ≤ 0 → compareFiles fs a c ≤ 0.
Proof.
  unfold compareFiles.
  destruct (countsAsProcessed fs a), (countsAsProcessed fs b),
    (countsAsProcessed fs c); simpl; lia.
Qed.

(** X9.  [sortFiles] returns the files it was given, each once, arranged
    so that no file comes after one it should precede: a file that counts
    as processed is never placed before one that does not, and among files
    of the same kind upload dates never increase down the list. *)
Theorem sortFiles_unprocessed_first_newest_first
    fs (fileList : list FileEntry) (i j : nat) a b :
  sortFiles fs fileList ≡ₚ fileList
  ∧ StronglySorted (notAfter fs) (sortFiles fs fileList)
  ∧ ((i < j)%nat →
     sortFiles fs fileList !! i = Some a →
     sortFiles fs fileList !! j = Some b →
     (countsAsProcessed fs a = true → countsAsProcessed fs b = true)
     ∧ (countsAsProcessed fs a = countsAsProcessed fs b →
        upload_date b ≤ upload_date a)).
Proof.
  assert (StronglySorted (notAfter fs) (sortFiles fs fileList)) as Hsorted.
  { unfold sortFiles, notAfter.
    apply sort_by_sorted; [apply compareFiles_total | apply compareFiles_trans]. }
  split; [apply sort_by_Permutation|]. split; [exact Hsorted|].
  intros Hij Hi Hj.
  pose proof (StronglySorted_lookup _ _ i j a b Hsorted Hij Hi Hj) as Hab.
  apply notAfter_spec in Hab as [[Heq Hdate]|[Ha Hb]].
  - split; [congruence | done].
  - split; [done | congruence].
Qed.

Lemma sortFiles_unprocessed_first_newest_first_witness :
  let fs : gmap string FileStatus :=
    {[ "f3" := mkFileStatus "completed" None None (Some 5) ]} in
  let l := [mkFileEntry "f1" "a.pdf" true 300; mkFileEntry "f2" "b.pdf" false 100;
            mkFileEntry "f3" "c.pdf" false 400; mkFileEntry "f4" "d.pdf" false 200] in
  sortFiles fs l
  = [mkFileEntry "f4" "d.pdf" false 200; mkFileEntry "f2" "b.pdf" false 100;
     mkFileEntry "f3" "c.pdf" false 400; mkFileEntry "f1" "a.pdf" true 300]
  ∧ sortFiles fs l ≡ₚ l.
Proof.
  split; [reflexivity|].
  exact (proj1 (sortFiles_unprocessed_first_newest_first
                  {[ "f3" := mkFileStatus "completed" None None (Some 5) ]}
                  [mkFileEntry "f1" "a.pdf" true 300; mkFileEntry "f2" "b.pdf" false 100;
                   mkFileEntry "f3" "c.pdf" false 400; mkFileEntry "f4" "d.pdf" false 200]
                  0 1 (mkFileEntry "f1" "a.pdf" true 300)
                  (mkFileEntry "f1" "a.pdf" true 300))).
Defined.

Section WithUpperCase.

Variable toUpperCase : string → string.

(** X10.  The filtered view shows whole groups.  Before the file list has
    arrived it is empty.  Every group shown is a group of the file list,
    under its own type, with exactly the files of that group, and its type
    matches the selected filter; under ['ALL'] every group is shown, in the
    order of the file list.  Every filter pill is ['ALL'] or the upper-case
    form of a type whose group is shown when that pill is selected, and a
    filter that matches no type shows nothing. *)
Theorem filter_shows_whole_groups
    (groups : list (string * list FileEntry)) (selected pill : string)
    fs (shownType : string) (shown : list FileEntry) :
  let view := getFilteredAndSortedFiles toUpperCase (Some groups) selected fs in
  getFilteredAndSortedFiles toUpperCase None selected fs = []
  ∧ ((shownType, shown) ∈ view →
     ∃ original, (shownType, original) ∈ groups ∧ shown ≡ₚ original
                 ∧ (selected = "ALL" ∨ toUpperCase shownType = selected))
  ∧ (selected = "ALL" → List.map fst view = List.map fst groups)
  ∧ (pill ∈ getAvailableFileTypes toUpperCase (Some groups) →
     pill = "ALL"
     ∨ ∃ group, group ∈ groups ∧ toUpperCase group.1 = pill
                ∧ group.1 ∈ List.map fst
                    (getFilteredAndSortedFiles toUpperCase (Some groups) pill fs))
  ∧ (selected ≠ "ALL" → (∀ group, group ∈ groups → toUpperCase group.1 ≠ selected) →
     view = []).
Proof.
  intros view. subst view. unfold getFilteredAndSortedFiles.
  split; [done|]. split; [|split; [|split]].
  - intros Hin. apply list_elem_of_In, in_map_iff in Hin as ([t original] & Heq & Hin).
    simpl in Heq. injection Heq as -> <-.
    apply filter_In in Hin as [Hin Hsel]. simpl in Hsel.
    exists original. rewrite list_elem_of_In. split; [done|].
    split; [apply sort_by_Permutation|].
    apply orb_prop in Hsel as [Hsel|Hsel]; apply String.eqb_eq in Hsel; auto.
  - intros ->. simpl.
    induction groups as [|g rest IH]; simpl; [done|]. by rewrite IH.
  - unfold getAvailableFileTypes. intros Hpill.
    apply elem_of_cons in Hpill as [->|Hpill]; [by left|]. right.
    rewrite sort_by_Permutation in Hpill.
    apply list_elem_of_In, in_map_iff in Hpill as (group & Hup & Hin).
    exists group. rewrite list_elem_of_In. split; [done|]. split; [done|].
    apply list_elem_of_In, in_map_iff.
    exists (group.1, sortFiles fs group.2). split; [done|].
    apply in_map_iff. exists group. split; [done|].
    apply filter_In. split; [done|].
    rewrite Hup, String.eqb_refl. apply orb_true_r.
  - intros Hnot Hnone.
    assert (List.filter
              (λ group : string * list FileEntry,
                 String.eqb selected "ALL"
                 || String.eqb (toUpperCase group.1) selected) groups = []) as ->;
      [|done].
    induction groups as [|g rest IH]; simpl; [done|].
    destruct (String.eqb_spec selected "ALL") as [|_]; [contradiction|]. simpl.
    destruct (String.eqb_spec (toUpperCase g.1) selected) as [Heq|_].
    + exfalso. apply (Hnone g); [by left | done].
    + apply IH. intros group Hg. apply Hnone. by right.
Qed.

End WithUpperCase.

Lemma filter_shows_whole_groups_witness :
  let groups := [("pdf", [mkFileEntry "f1" "a.pdf" true 300]);
                 ("txt", [mkFileEntry "f2" "b.txt" false 100])] in
  List.map fst (getFilteredAndSortedFiles (λ t, t) (Some groups) "ALL" ∅)
  = ["pdf"; "txt"].
Proof.
  refine (proj1 (proj2 (proj2
    (filter_shows_whole_groups (λ t, t)
       [("pdf", [mkFileEntry "f1" "a.pdf" true 300]);
        ("txt", [mkFileEntry "f2" "b.txt" false 100])]
       "ALL" "ALL" ∅ "pdf" []))) eq_refl).
Defined.

(** X11.  After a tick that ran into the timeout, the row of a file the
    server has not marked processed shows it as failed and offers the
    process button with the caption [Retry]; it is not shown as
    processing. *)
Theorem timed_out_file_offers_retry
    (file : FileEntry) (sd : StatusData) (t0 t1 : Z) (s : State) :
  processed file = false →
  120000 < t1 - effective_start (fileStatuses s !! id file) t0 →
  let fs := fileStatuses (next (pollStatus (id file) (Some sd) t0 t1 s)) in
  isFailed fs file = true
  ∧ isProcessing fs file = false
  ∧ showsProcessButton fs file = true
  ∧ buttonCaptions fs file = ["Retry"].
Proof.
  intros Hun Hlate fs. subst fs. unfold pollStatus.
  apply Z.ltb_lt in Hlate. unfold POLL_TIMEOUT. rewrite Hlate.
  unfold isFailed, isProcessing, showsProcessButton, buttonCaptions, isPending,
    isCompleted, isProcessing, isFailed, getFileDisplayStatus.
  simpl. rewrite lookup_insert_eq, Hun. by simpl.
Qed.

Lemma timed_out_file_offers_retry_witness :
  let file := mkFileEntry "f1" "a.pdf" false 300 in
  let s := Handlers.track "f1" (mkFileStatus "processing" None None (Some 1000)) init in
  buttonCaptions
    (fileStatuses (next (pollStatus "f1" (Some (mkStatusData "processing" None None))
                           200000 200000 s))) file
  = ["Retry"].
Proof.
  assert (120000 < 200000 - 1000) as Hlate by lia.
  exact (proj2 (proj2 (proj2
    (timed_out_file_offers_retry (mkFileEntry "f1" "a.pdf" false 300)
       (mkStatusData "processing" None None) 200000 200000
       (Handlers.track "f1" (mkFileStatus "processing" None None (Some 1000)) init)
       eq_refl Hlate)))).
Defined.

End DashboardList.

(** * More on the chat controller *)

Section TrimFacts.
Import Chat ChatView.

Lemma trim_start_clean (s : string) : starts_clean (trim_start s).
Proof.
  induction s as [|c s IH]; simpl; [done|].
  destruct (is_space c) eqn:E; [exact IH | exact E].
Qed.

Lemma trim_end_twice (s : string) : trim_end (trim_end s) = trim_end s.
Proof.
  induction s as [|c s IH]; simpl; [done|].
  destruct (trim_end s) as [|c' r] eqn:E.
  - destruct (is_space c) eqn:Hc; simpl; [done|]. by rewrite Hc.
  - change (trim_end (String c (String c' r))) with
      (match trim_end (String c' r) with
       | EmptyString => if is_space c then EmptyString else String c EmptyString
       | r0 => String c r0
       end).
    by rewrite IH.
Qed.

Lemma trim_end_keeps_clean_start (s : string) :
  starts_clean s → trim_start (trim_end s) = trim_end s.
Proof.
  destruct s as [|c s]; simpl; [done|]. intros Hc.
  destruct (trim_end s); rewrite ?Hc; simpl; by rewrite ?Hc.
Qed.

Lemma trim_idempotent (s : string) : trim (trim s) = trim s.
Proof.
  unfold trim.
  rewrite (trim_end_keeps_clean_start _ (trim_start_clean s)).
  apply trim_end_twice.
Qed.

Lemma finalQuestion_trimmed (question_p : string) (s : State) :
  trim (finalQuestion question_p s) = finalQuestion question_p s.
Proof.
  unfold finalQuestion. destruct (truthy (trim question_p)); apply trim_idempotent.
Qed.

End TrimFacts.

Section ChatMore.
Import Chat.

Implicit Types (s : State) (props : Props) (files : list File).

Lemma truthy_true (q : string) : truthy q = true ↔ q ≠ "".
Proof.
  unfold truthy. destruct (String.eqb_spec q ""); simpl; split; congruence.
Qed.

Lemma handleSubmit_begin_cases props files (question_p : string)
    (created : option positive) (now : string) s :
  (∃ fx, handleSubmit_begin props files question_p created now s = Aborted s fx
         ∧ Forall (λ e, e = CreateSession ∨ ∃ text, e = Alert text) fx)
  ∨ (∃ target pre,
       handleSubmit_begin props files question_p created now s
       = Sent (mkState "" true
                 (messages s ++ [mkMessage (finalQuestion question_p s) true now None])
                 false (language s) (model s))
           (pre ++ [PostMessage target (finalQuestion question_p s)
                      (language s) (model s)])
       ∧ (pre = [] ∧ sessionId props = Some target
          ∨ pre = [CreateSession] ∧ sessionId props = None ∧ created = Some target)
       ∧ finalQuestion question_p s ≠ ""
       ∧ length files ≠ 0%nat).
Proof.
  unfold handleSubmit_begin.
  destruct (Nat.eqb_spec (length files) 0) as [Hlen|Hlen].
  { left. eexists. split; [done|].
    constructor; [right; by eexists | constructor]. }
  destruct (truthy (finalQuestion question_p s)) eqn:Hq; simpl.
  2:{ left. eexists. split; [done|].
      constructor; [right; by eexists | constructor]. }
  apply truthy_true in Hq.
  destruct (sessionId props) as [sid|] eqn:Hsid; simpl.
  - right. exists sid, []. repeat split; try done. by left.
  - destruct (onCreateSession props); simpl.
    + destruct created as [target|].
      * right. exists target, [CreateSession]. repeat split; try done. by right.
      * left. eexists. split; [done|].
        constructor; [by left|]. constructor; [right; by eexists | constructor].
    + left. eexists. split; [done|]. constructor.
Qed.

(** X12.  With a session selected, [handleSubmit] never removes or
    rewrites a message.  Either it gives up, leaving the whole state as it
    was and doing nothing but one alert; or it appends exactly two messages,
    the user's and then an assistant-side one, to the list it started from.
    In that case the user message and the one send request, to the selected
    session, carry the same text, which is not empty and has no white space
    left at its ends; the second message is the reply, or on a failed send
    the rejection's detail or the generic text; the input box is emptied and
    the loading flag ends lowered; and the send is followed by at most the
    refresh of the session list. *)
Theorem submit_appends_nothing_or_a_pair
    props files (question_p : string) (created : option positive)
    (remounted : State) (now now' : string) (result : PostResult)
    (selected : positive) s :
  sessionId props = Some selected →
  let out := handleSubmit props files question_p created remounted now result now' s in
  (out.1 = s ∧ ∃ text, out.2 = [Alert text])
  ∨ (∃ asked reply post,
       messages out.1 = messages s ++ [asked; reply]
       ∧ is_user_message asked = true
       ∧ is_user_message reply = false
       ∧ message asked ≠ ""
       ∧ trim (message asked) = message asked
       ∧ message reply
         = match result with
           | PostOk r => content r
           | PostFailed detail => or_default detail generic_error
           end
       ∧ out.2 = PostMessage selected (message asked) (language s) (model s) :: post
       ∧ (post = [] ∨ post = [SessionUpdate])
       ∧ question out.1 = ""
       ∧ isLoading out.1 = false).
Proof.
  intros Hsid out. subst out. unfold handleSubmit.
  destruct (handleSubmit_begin_cases props files question_p created now s)
    as [(fx & Heq & Hfx)|(target & pre & -> & Hpre & Hq & _)].
  - left. rewrite Heq. split; [done|].
    revert Heq. unfold handleSubmit_begin.
    destruct (length files =? 0)%nat; [intros [= <-]; by eexists|].
    destruct (truthy (finalQuestion question_p s)); simpl;
      [|intros [= <-]; by eexists].
    rewrite Hsid. simpl. discriminate.
  - right. destruct Hpre as [[-> Htarget]|(_ & Hnone & _)]; [|congruence].
    assert (target = selected) as -> by congruence.
    rewrite Hsid. unfold handleSubmit_settle.
    destruct result as [r|detail]; simpl.
    + exists (mkMessage (finalQuestion question_p s) true now None),
        (mkMessage (content r) false (created_at r) (ai_documents_used r)),
        (if onSessionUpdate props then [SessionUpdate] else []).
      rewrite <- !app_assoc. simpl.
      repeat split; try done; [apply finalQuestion_trimmed|].
      destruct (onSessionUpdate props); auto.
    + exists (mkMessage (finalQuestion question_p s) true now None),
        (mkMessage (or_default detail generic_error) false now' None), [].
      rewrite <- !app_assoc. simpl.
      repeat split; try done; [apply finalQuestion_trimmed | by left].
Qed.

Lemma submit_appends_nothing_or_a_pair_witness :
  let s := mkState " What is N7?  " false [] false "Auto-detect" "Mistral" in
  let out := handleSubmit (mkProps (Some 3%positive) true true)
               [mkFile "12" "rules.pdf" true] "" None (initialState false) "t1"
               (PostFailed (Some "Model unavailable")) "t3" s in
  out.1 = s
  ∨ ∃ asked reply, messages out.1 = messages s ++ [asked; reply]
                   ∧ trim (message asked) = message asked
                   ∧ message reply = "Model unavailable".
Proof.
  destruct (submit_appends_nothing_or_a_pair (mkProps (Some 3%positive) true true)
              [mkFile "12" "rules.pdf" true] "" None (initialState false) "t1" "t3"
              (PostFailed (Some "Model unavailable")) 3%positive
              (mkState " What is N7?  " false [] false "Auto-detect" "Mistral") eq_refl)
    as [[H _]|(asked & reply & post & Hm & _ & _ & _ & Ht & Hr & _)].
  - by left.
  - right. by exists asked, reply.
Defined.

End ChatMore.

Section DeferredQuestion.
Import Chat ChatView.

Implicit Types (s : State) (props : Props) (files : list File).

Lemma trim_nonempty (q : string) : trim q ≠ "" → q ≠ "".
Proof. intros H ->. by apply H. Qed.

Lemma pendingEffect_consumes (nav stored : option string) (q : string) :
  or_else nav stored = Some q → q ≠ "" →
  pendingEffect false (mounted nav stored)
  = mkHandoff true
      (if truthy_opt nav then None else nav)
      (if truthy_opt stored then None else stored)
      [(100, q)].
Proof.
  intros Hq Hne. unfold pendingEffect, mounted. simpl. rewrite Hq.
  by rewrite (proj2 (truthy_true q) Hne).
Qed.

(** X14.  A question typed on the landing page reaches the chat once and
    is sent trimmed.  A blank question goes nowhere.  Any other question
    leaves through the navigation state when the user is signed in and
    through local storage otherwise; the first run of the effect of a
    controller mounted on it, once the file list is not loading, schedules
    that very text once and empties both places.  When the scheduled call
    runs without a session id, as on a page that has just mounted (the
    roster fetch selects no session while a question is pending), with a
    processed document and a session created by the page, it asks for the
    session and then sends the trimmed text to it. *)
Theorem landing_question_is_posted_trimmed
    (question : string) (token user : bool) props files
    (now : string) (target : positive) s :
  (trim question = "" →
   handleQuestionSubmit question token user = Stay
   ∧ scheduled (pendingEffect false (arrival Stay)) = [])
  ∧ (trim question ≠ "" →
     let h := pendingEffect false (arrival (handleQuestionSubmit question token user)) in
     handleQuestionSubmit question token user
       = (if token && user then ToChat question else ToLogin question)
     ∧ scheduled h = [(100, question)]
     ∧ hasHandledPendingRef h = true
     ∧ stateQuestion h = None
     ∧ pendingQuestion h = None
     ∧ (length files ≠ 0%nat → sessionId props = None →
        onCreateSession props = true →
        ∃ s1, handleSubmit_begin props files question (Some target) now s
              = Sent s1 [CreateSession;
                         PostMessage target (trim question) (language s) (model s)])).
Proof.
  split.
  - intros Hblank. unfold handleQuestionSubmit. rewrite Hblank. by simpl.
  - intros Hq. pose proof (trim_nonempty _ Hq) as Hne.
    assert (handleQuestionSubmit question token user
            = (if token && user then ToChat question else ToLogin question)) as Hleave.
    { unfold handleQuestionSubmit. by rewrite (proj2 (truthy_true _) Hq). }
    assert (truthy question = true) as Ht by by apply truthy_true.
    cbv zeta. rewrite Hleave. split; [done|].
    assert (∀ nav stored, or_else nav stored = Some question →
              (nav = Some question ∧ stored = None
               ∨ nav = None ∧ stored = Some question) →
              scheduled (pendingEffect false (mounted nav stored)) = [(100, question)]
              ∧ hasHandledPendingRef (pendingEffect false (mounted nav stored)) = true
              ∧ stateQuestion (pendingEffect false (mounted nav stored)) = None
              ∧ pendingQuestion (pendingEffect false (mounted nav stored)) = None)
      as Hrun.
    { intros nav stored Hor Hwhere.
      rewrite (pendingEffect_consumes nav stored question Hor Hne). simpl.
      destruct Hwhere as [[-> ->]|[-> ->]]; simpl; by rewrite Ht. }
    assert (or_else (Some question) None = Some question) as Hnav
      by (unfold or_else; simpl; by rewrite Ht).
    assert (length files ≠ 0%nat → sessionId props = None →
            onCreateSession props = true →
            ∃ s1, handleSubmit_begin props files question (Some target) now s
                  = Sent s1 [CreateSession;
                             PostMessage target (trim question)
                               (language s) (model s)]) as Hpost.
    { intros Hlen Hsid Hcb. unfold handleSubmit_begin, finalQuestion.
      destruct (Nat.eqb_spec (length files) 0) as [|_]; [contradiction|].
      rewrite (proj2 (truthy_true _) Hq). simpl.
      rewrite (proj2 (truthy_true _) Hq), Hsid, Hcb. simpl. by eexists. }
    destruct (token && user); unfold arrival.
    + destruct (Hrun (Some question) None Hnav) as (Ha & Hb & Hc & Hd); [by left|].
      by repeat split.
    + destruct (Hrun None (Some question) eq_refl) as (Ha & Hb & Hc & Hd); [by right|].
      by repeat split.
Qed.

Lemma landing_question_is_posted_trimmed_witness :
  scheduled (pendingEffect false (arrival (handleQuestionSubmit " When are exams? " false false)))
  = [(100, " When are exams? ")].
Proof.
  refine (proj1 (proj2 (proj2
    (landing_question_is_posted_trimmed " When are exams? " false false
       (mkProps None true true) [mkFile "12" "rules.pdf" true] "t1"
       3%positive (mkState "" false [] false "Auto-detect" "Mistral")) _))).
  discriminate.
Defined.

(** X15.  A deferred question is used up whether or not it can be asked.
    On a freshly mounted controller that finds a question, the effect
    schedules it and empties the navigation state and local storage; if no
    document is processed when the scheduled call runs, [handleSubmit] only
    alerts and leaves the state as it was, and no later run of the effect
    schedules anything: the question is not sent and is not kept. *)
Theorem deferred_question_is_dropped_without_documents
    (nav stored : option string) (q : string) props
    (created : option positive) (remounted : State) (now now' : string)
    (result : PostResult) (loading : bool) s :
  or_else nav stored = Some q → q ≠ "" →
  let h := pendingEffect false (mounted nav stored) in
  scheduled h = [(100, q)]
  ∧ handleSubmit props [] q created remounted now result now' s
    = (s, [Alert "Please add at least one document to the knowledge base first."])
  ∧ truthy_opt (stateQuestion h) = false
  ∧ truthy_opt (pendingQuestion h) = false
  ∧ pendingEffect loading h = h.
Proof.
  intros Hq Hne h. subst h. rewrite (pendingEffect_consumes nav stored q Hq Hne).
  simpl. split; [done|]. split; [done|].
  split; [by destruct (truthy_opt nav) eqn:E|].
  split; [by destruct (truthy_opt stored) eqn:E|].
  unfold pendingEffect. simpl. by destruct loading.
Qed.

Lemma deferred_question_is_dropped_without_documents_witness :
  let h := pendingEffect false (mounted None (Some "What is N7?")) in
  scheduled h = [(100, "What is N7?")] ∧ pendingEffect false h = h.
Proof.
  destruct (deferred_question_is_dropped_without_documents None (Some "What is N7?")
              "What is N7?" (mkProps None true true) None (initialState false)
              "t1" "t2" (PostFailed None)
              false (mkState "" false [] false "Auto-detect" "Mistral") eq_refl)
    as (Hs & _ & _ & _ & Hidle); [discriminate|].
  by split.
Defined.

(** X16.  When a message is sent from a page with no active session, the
    session the page creates is the one the message goes to.  The created
    session is put first in the roster and made active, the chat key is
    raised, and the id the page returns is the target of the send request,
    which follows the session request.  If the creation fails the page's
    state is unchanged and no id is returned. *)
Theorem message_goes_to_the_session_just_created
    (newSession : Sessions.Session) (page : Sessions.State) props files
    (question_p now : string) s :
  sessionId props = None →
  onCreateSession props = true →
  length files ≠ 0%nat →
  finalQuestion question_p s ≠ "" →
  let made := Sessions.createNewSession (Some newSession) page in
  Sessions.sessions made.1 = newSession :: Sessions.sessions page
  ∧ Sessions.activeSessionId made.1 = Some (Sessions.id newSession)
  ∧ Sessions.chatKey made.1 = S (Sessions.chatKey page)
  ∧ (∃ s1, handleSubmit_begin props files question_p made.2 now s
           = Sent s1 [CreateSession;
                      PostMessage (Sessions.id newSession) (finalQuestion question_p s)
                        (language s) (model s)])
  ∧ Sessions.createNewSession None page = (page, None).
Proof.
  intros Hnone Hcb Hlen Hq. simpl. repeat split.
  destruct (handleSubmit_begin_cases props files question_p
              (Some (Sessions.id newSession)) now s)
    as [(fx & Heq & _)|(target & pre & Heq & Hpre & _)].
  - exfalso. revert Heq. unfold handleSubmit_begin.
    destruct (Nat.eqb_spec (length files) 0) as [|_]; [contradiction|].
    rewrite (proj2 (truthy_true _) Hq), Hnone, Hcb. simpl. discriminate.
  - destruct Hpre as [[_ Hsid]|(-> & _ & [= <-])]; [congruence|].
    eexists. exact Heq.
Qed.

Lemma message_goes_to_the_session_just_created_witness :
  let made := Sessions.createNewSession (Some (Sessions.mkSession 9 "New Chat" "t0"))
                (Sessions.mkState [] None false 0) in
  ∃ s1, handleSubmit_begin (mkProps None true true) [mkFile "12" "rules.pdf" true]
          "Hello" made.2 "t1" (mkState "" false [] false "Auto-detect" "Mistral")
        = Sent s1 [CreateSession; PostMessage 9 "Hello" "Auto-detect" "Mistral"].
Proof.
  refine (proj1 (proj2 (proj2 (proj2
    (message_goes_to_the_session_just_created (Sessions.mkSession 9 "New Chat" "t0")
       (Sessions.mkState [] None false 0) (mkProps None true true)
       [mkFile "12" "rules.pdf" true] "Hello" "t1"
       (mkState "" false [] false "Auto-detect" "Mistral") eq_refl eq_refl _ _))))).
  - discriminate.
  - discriminate.
Defined.

End DeferredQuestion.

(** * More on the session list *)

Section SessionsMore.
Import Sessions SessionActions.

Implicit Types (s : State) (l : list Session).



Lemma without_absent l (i : positive) : i ∉ List.map id l → without i l = l.
Proof.
  induction l as [|x l IH]; [done|]. simpl. intros Hnot.
  apply not_elem_of_cons in Hnot as [Hne Hnot].
  unfold without in *. rewrite filter_cons.
  destruct (decide (id x ≠ i)) as [_|Heq]; [by rewrite IH|].
  exfalso. apply Heq. congruence.
Qed.




(** X18.  Creating a session and deleting it again gives back the roster
    as it was, but not the selection: the active session is then the first
    of the roster, whichever was active before, or none if the roster is
    empty. *)
Theorem create_then_delete_restores_the_roster_only (n : Session) s :
  id n ∉ List.map id (sessions s) →
  let s' := deleteSession (id n) true true (createNewSession (Some n) s).1 in
  sessions s' = sessions s
  ∧ activeSessionId s' = id <$> sessions s !! 0%nat
  ∧ (chatKey s < chatKey s')%nat.
Proof.
  intros Hfresh s'. subst s'. unfold createNewSession, deleteSession. simpl.
  rewrite bool_decide_eq_true_2 by done.
  assert (without (id n) (n :: sessions s) = sessions s) as ->.
  { unfold without. rewrite filter_cons.
    destruct (decide (id n ≠ id n)); [done|]. by apply without_absent. }
  destruct (sessions s) as [|first rest]; simpl; repeat split; lia.
Qed.

Lemma create_then_delete_restores_the_roster_only_witness :
  let s := mkState [mkSession 8 "Exams" "t2"; mkSession 5 "Housing" "t1"]
             (Some 5%positive) false 0 in
  activeSessionId
    (deleteSession 9 true true (createNewSession (Some (mkSession 9 "New Chat" "t3")) s).1)
  = Some 8%positive.
Proof.
  refine (proj1 (proj2
    (create_then_delete_restores_the_roster_only (mkSession 9 "New Chat" "t3")
       (mkState [mkSession 8 "Exams" "t2"; mkSession 5 "Housing" "t1"]
          (Some 5%positive) false 0) _))).
  simpl. intros Hin.
  apply elem_of_cons in Hin as [Hin|Hin]; [discriminate Hin|].
  apply list_elem_of_singleton in Hin. discriminate Hin.
Defined.



(** X20.  [formatDate] counts whole periods of 24 hours, not calendar
    days: [Today] for less than one period, [Yesterday] for one, the
    number of periods for two to six, and the locale date from seven on.
    A date later than the clock gives a negative number of days ago. *)
Theorem formatDate_counts_whole_days (date now n : Z) :
  (formatDate date now = Today ↔ 0 ≤ now - date < dayMs)
  ∧ (formatDate date now = Yesterday ↔ dayMs ≤ now - date < 2 * dayMs)
  ∧ (formatDate date now = DaysAgo n ↔
     n = (now - date) / dayMs ∧ (n < 0 ∨ 2 ≤ n < 7))
  ∧ (formatDate date now = LocaleDate date ↔ 7 * dayMs ≤ now - date)
  ∧ (now < date → ∃ k, k < 0 ∧ formatDate date now = DaysAgo k).
Proof.
  unfold formatDate.
  pose proof (Z.div_mod (now - date) dayMs) as Hdm.
  pose proof (Z.mod_pos_bound (now - date) dayMs) as Hmod.
  unfold dayMs in *.
  set (d := (now - date) / (1000 * 60 * 60 * 24)) in *.
  set (r := (now - date) mod (1000 * 60 * 60 * 24)) in *.
  assert (now - date = 86400000 * d + r) as Hx by (apply Hdm; lia).
  assert (0 ≤ r < 86400000) as Hr by (apply Hmod; lia).
  clear Hdm Hmod.
  destruct (Z.eqb_spec d 0) as [H0|H0];
    [|destruct (Z.eqb_spec d 1) as [H1|H1];
      [|destruct (Z.ltb_spec d 7) as [H7|H7]]];
    (repeat split; try (intros; lia); try (intros [=]; lia); try discriminate).
  - by injection H.
  - injection H as <-. lia.
  - by intros [-> _].
  - intros Hlate. exists d. split; [lia | done].
Qed.

Lemma formatDate_counts_whole_days_witness :
  formatDate 1000 500 = DaysAgo (-1).
Proof.
  destruct (formatDate_counts_whole_days 1000 500 (-1)) as (_ & _ & H & _).
  apply H. split; [reflexivity | lia].
Defined.

End SessionsMore.

(** * More on the dashboard and on unmounting *)

Section DashboardCounters.
Import Poller Dashboard.

Implicit Types (fs : gmap string FileStatus) (l : list FileEntry).

Lemma isUnprocessed_countsAsProcessed fs (x : FileEntry) :
  isUnprocessed fs x = negb (countsAsProcessed fs x).
Proof. unfold isUnprocessed, countsAsProcessed. by rewrite negb_orb. Qed.

Lemma filter_length_Permutation {A : Type} (p : A → bool) (l1 l2 : list A) :
  l1 ≡ₚ l2 → length (List.filter p l1) = length (List.filter p l2).
Proof.
  induction 1 as [|x l1 l2 _ IH|x y l|l1 l2 l3 _ IH1 _ IH2]; simpl.
  - done.
  - destruct (p x); simpl; by rewrite IH.
  - by destruct (p x), (p y).
  - by rewrite IH1.
Qed.

Lemma filter_none {A : Type} (p : A → bool) (l : list A) :
  Forall (λ y, p y = false) l → List.filter p l = [].
Proof.
  induction 1 as [|y l Hy _ IH]; simpl; [done|]. by rewrite Hy.
Qed.

Lemma filter_length_bound {A : Type} (p : A → bool) (l : list A) :
  (length (List.filter p l) ≤ length l)%nat.
Proof.
  induction l as [|y l IH]; simpl; [done|]. destruct (p y); simpl; lia.
Qed.

Lemma sorted_splits (sortedUnder drawnWith : gmap string FileStatus) l :
  StronglySorted (notAfter sortedUnder) l →
  (∀ x, x ∈ l → countsAsProcessed drawnWith x = countsAsProcessed sortedUnder x) →
  l = List.filter (isUnprocessed drawnWith) l
      ++ List.filter (λ x, negb (isUnprocessed drawnWith x)) l.
Proof.
  induction l as [|x l IH]; [done|]. intros Hs Hsame.
  apply StronglySorted_cons in Hs as [Hall Hs].
  assert (∀ y, y ∈ l → countsAsProcessed drawnWith y = countsAsProcessed sortedUnder y)
    as Hsame' by (intros y Hy; apply Hsame; by right).
  specialize (IH Hs Hsame'). simpl.
  rewrite isUnprocessed_countsAsProcessed.
  destruct (countsAsProcessed drawnWith x) eqn:Hx; simpl.
  - assert (List.filter (isUnprocessed drawnWith) l = []) as Hnone.
    { apply filter_none. rewrite Forall_forall in Hall |- *. intros y Hy.
      pose proof (Hall y Hy) as Hxy.
      apply notAfter_spec in Hxy as [[Heq _]|[Hfalse _]].
      - rewrite isUnprocessed_countsAsProcessed, (Hsame' y Hy), <- Heq.
        rewrite <- (Hsame x) by by left. by rewrite Hx.
      - rewrite <- (Hsame x) in Hfalse by by left. congruence. }
    rewrite Hnone in IH |- *. simpl in *. by rewrite <- IH.
  - by rewrite <- IH.
Qed.

(** X21.  The header's counters, computed on the sorted list with the
    statuses of the render, do not depend on the order the memo left the
    list in: the counter of unprocessed files is the same on the list as it
    was given, and the two counters are not negative and add up to the
    number of files.  The list is sorted under the statuses of the render
    in which the memo was computed and drawn with those of the current one;
    when the two classify each file of the list alike, the rows drawn as
    unprocessed come first and the others after them, nothing in between. *)
Theorem sorted_list_is_unprocessed_rows_then_the_rest
    (sortedUnder drawnWith : gmap string FileStatus) l :
  let rows := sortFiles sortedUnder l in
  unprocessedCount drawnWith rows = unprocessedCount drawnWith l
  ∧ unprocessedCount drawnWith rows + processedCount drawnWith rows
    = Z.of_nat (length l)
  ∧ 0 ≤ unprocessedCount drawnWith rows
  ∧ 0 ≤ processedCount drawnWith rows
  ∧ ((∀ x, x ∈ l →
           countsAsProcessed drawnWith x = countsAsProcessed sortedUnder x) →
     rows = List.filter (isUnprocessed drawnWith) rows
            ++ List.filter (λ x, negb (isUnprocessed drawnWith x)) rows).
Proof.
  intros rows.
  assert (rows ≡ₚ l) as Hperm by apply sort_by_Permutation.
  assert (length rows = length l) as Hlen by by rewrite Hperm.
  assert (unprocessedCount drawnWith rows = unprocessedCount drawnWith l) as Hcount.
  { unfold unprocessedCount. f_equal. by apply filter_length_Permutation. }
  split; [exact Hcount|].
  pose proof (filter_length_bound (isUnprocessed drawnWith) rows) as Hle.
  unfold processedCount, unprocessedCount in *.
  split; [lia|]. split; [lia|]. split; [lia|].
  intros Hsame. apply (sorted_splits sortedUnder).
  - unfold rows, sortFiles, notAfter.
    apply sort_by_sorted; [apply compareFiles_total | apply compareFiles_trans].
  - intros x Hx. apply Hsame. by rewrite <- Hperm.
Qed.

Lemma sorted_list_is_unprocessed_rows_then_the_rest_witness :
  let l := [mkFileEntry "f1" "a.pdf" true 300; mkFileEntry "f2" "b.pdf" false 100] in
  sortFiles ∅ l
  = List.filter (isUnprocessed ∅) (sortFiles ∅ l)
    ++ List.filter (λ x, negb (isUnprocessed ∅ x)) (sortFiles ∅ l).
Proof.
  refine (proj2 (proj2 (proj2 (proj2
    (sorted_list_is_unprocessed_rows_then_the_rest ∅ ∅
       [mkFileEntry "f1" "a.pdf" true 300; mkFileEntry "f2" "b.pdf" false 100]))))
    _).
  done.
Defined.

(** When a status has changed since the memo was computed the order is
    the old one: a file that completed in between is still drawn above the
    file that is still unprocessed. *)
Example rows_keep_the_order_of_the_memo :
  let l := [mkFileEntry "f1" "a.pdf" false 300; mkFileEntry "f2" "b.pdf" false 100] in
  let drawnWith : gmap string FileStatus :=
    {[ "f1" := mkFileStatus "completed" None None (Some 5) ]} in
  List.map (isUnprocessed drawnWith) (sortFiles ∅ l) = [false; true].
Proof. reflexivity. Qed.

End DashboardCounters.

Section Unmount.
Import Poller Handlers.

Lemma unmount_clears_registered (s : State) (f : string) (h : positive) :
  pollIntervalsRef s !! f = Some h → timers (unmount s) !! h = None.
Proof.
  unfold unmount. simpl. revert f h.
  apply (map_fold_weak_ind
           (λ (t : gmap positive string) (m : gmap string positive),
              ∀ f h, m !! f = Some h → t !! h = None)).
  - intros f h. by rewrite lookup_empty.
  - intros k h0 m t Hfresh IH f h. unfold clearInterval.
    rewrite lookup_insert. case_decide as Hk.
    + intros [= <-]. apply lookup_delete_eq.
    + intros Hm. apply lookup_delete_None. right. by apply (IH f).
Qed.

(** X22.  Unmounting leaves no timer behind.  Every handle in the registry
    is cleared, so when the registry and the timer table agree, as they do
    while the component is mounted, no interval timer of the component is
    live afterwards; the tracked statuses and the registry itself are left
    as they are. *)
Theorem unmount_leaves_no_timer (s : State) :
  agree s →
  timers (unmount s) = ∅
  ∧ (∀ f h, pollIntervalsRef s !! f = Some h → timers (unmount s) !! h = None)
  ∧ pollIntervalsRef (unmount s) = pollIntervalsRef s
  ∧ fileStatuses (unmount s) = fileStatuses s.
Proof.
  intros Hag. split; [|split; [apply unmount_clears_registered | done]].
  apply map_empty. intros h.
  destruct (timers (unmount s) !! h) as [f|] eqn:Hlive; [|done].
  pose proof (unmount_timers_sub s h f Hlive) as Hold.
  apply Hag in Hold. apply unmount_clears_registered in Hold. congruence.
Qed.

Lemma unmount_leaves_no_timer_witness :
  timers (unmount (startPolling "f2" 5%positive (startPolling "f1" 4%positive init))) = ∅.
Proof.
  refine (proj1 (unmount_leaves_no_timer _ _)).
  apply agree_startPolling; [|reflexivity].
  apply agree_startPolling; [apply agree_init | reflexivity].
Defined.

End Unmount.
